(** * A shallow embedding of the blog application (main.py, forms.py)

    The three tables, the login session, the flashed messages and every
    view function of [main.py] are embedded as executable definitions.
    Python exceptions are explicit results, the database and the session
    are threaded through a small state-and-exception monad, and the
    third-party functions the views call (the werkzeug password hasher and
    the wtforms validators) are the methods of a type class. *)

From Stdlib Require Import Ascii String List Bool Arith Lia.
Import ListNotations.
Local Open Scope string_scope.
Local Open Scope nat_scope.
Local Open Scope list_scope.

(** ** Tables ([# CONFIGURE TABLES] in main.py) *)

(** [author_id], [commenter_id] and [blog_id] are nullable foreign-key
    columns, hence [option nat]. *)
Module BlogPost.
Record t : Type := mk
  { id : nat;
    title : string;
    subtitle : string;
    date : string;
    body : string;
    img_url : string;
    author_id : option nat }.
End BlogPost.

Module User.
Record t : Type := mk
  { id : nat;
    name : string;
    email : string;
    password : string }.
End User.

Module Comment.
Record t : Type := mk
  { id : nat;
    text : string;
    commenter_id : option nat;
    blog_id : option nat }.
End Comment.

(** The database: one list of rows per table, in rowid order. *)
Record Database : Type := mkDatabase
  { users : list User.t;
    blog_posts : list BlogPost.t;
    comments : list Comment.t }.

(** What one client's requests see and change: the database, the user id
    kept in the signed session cookie by flask_login, and the messages
    queued by [flash]. *)
Record World : Type := mkWorld
  { db : Database;
    session_user_id : option nat;
    flashes : list string }.

(** ** Exceptions and the handler monad *)

Inductive Exception : Type :=
| AttributeError
| HTTPException (code : nat)
| IntegrityError
| UnmappedInstanceError.

Inductive Result (A : Type) : Type :=
| Return (a : A)
| Raise (e : Exception).
Arguments Return {A} a.
Arguments Raise {A} e.

Definition M (A : Type) : Type := World -> Result A * World.

Definition ret {A} (a : A) : M A := fun w => (Return a, w).

Definition raise {A} (e : Exception) : M A := fun w => (Raise e, w).

Definition bind {A B} (m : M A) (k : A -> M B) : M B :=
  fun w =>
    match m w with
    | (Return a, w') => k a w'
    | (Raise e, w') => (Raise e, w')
    end.

(** [try: m except AttributeError: h] *)
Definition try_except_AttributeError {A} (m : M A) (h : M A) : M A :=
  fun w =>
    match m w with
    | (Raise AttributeError, w') => h w'
    | r => r
    end.

Declare Scope handler_scope.
Delimit Scope handler_scope with handler.
Notation "x <- m ;; k" := (bind m (fun x => k))
  (at level 61, m at next level, right associativity) : handler_scope.
Notation "m ;;; k" := (bind m (fun _ => k))
  (at level 61, right associativity) : handler_scope.
Local Open Scope handler_scope.

(** ** The database layer (flask_sqlalchemy over SQLite) *)

(** An INTEGER PRIMARY KEY column receives the largest id in use plus one. *)
Definition next_id (ids : list nat) : nat := S (fold_right Nat.max 0 ids).

(** [User.query.get(i)] *)
Definition User_query_get (d : Database) (i : nat) : option User.t :=
  find (fun u => User.id u =? i) (users d).

(** [User.query.filter_by(email=e).first()] *)
Definition User_query_filter_by_email_first (d : Database) (e : string)
  : option User.t :=
  find (fun u => String.eqb (User.email u) e) (users d).

(** [BlogPost.query.get(i)] *)
Definition BlogPost_query_get (d : Database) (i : nat) : option BlogPost.t :=
  find (fun p => BlogPost.id p =? i) (blog_posts d).

Definition title_in_use (d : Database) (t : string) : bool :=
  existsb (fun p => String.eqb (BlogPost.title p) t) (blog_posts d).

Definition email_in_use (d : Database) (e : string) : bool :=
  existsb (fun u => String.eqb (User.email u) e) (users d).

(** [db.session.add(User(...)); db.session.commit()]: the row is inserted
    unless the [unique=True] constraint on [email] rejects it. *)
Definition insert_user (nm em pw : string) : M User.t :=
  fun w =>
    let d := db w in
    if email_in_use d em then (Raise IntegrityError, w)
    else
      let u := User.mk (next_id (map User.id (users d))) nm em pw in
      (Return u,
       mkWorld (mkDatabase (users d ++ [u]) (blog_posts d) (comments d))
               (session_user_id w) (flashes w)).

(** [db.session.add(BlogPost(...)); db.session.commit()]: the row is
    inserted unless the [unique=True] constraint on [title] rejects it. *)
Definition insert_blog_post
  (ttl sub bdy img : string) (author : nat) (dt : string) : M BlogPost.t :=
  fun w =>
    let d := db w in
    if title_in_use d ttl then (Raise IntegrityError, w)
    else
      let p := BlogPost.mk (next_id (map BlogPost.id (blog_posts d)))
                           ttl sub dt bdy img (Some author) in
      (Return p,
       mkWorld (mkDatabase (users d) (blog_posts d ++ [p]) (comments d))
               (session_user_id w) (flashes w)).

(** [db.session.add(Comment(...)); db.session.commit()]. SQLite does not
    check foreign keys unless a connection asks for it, and nothing in
    main.py does, so the insert never fails. *)
Definition insert_comment (txt : string) (blog commenter : nat) : M Comment.t :=
  fun w =>
    let d := db w in
    let c := Comment.mk (next_id (map Comment.id (comments d)))
                        txt (Some commenter) (Some blog) in
    (Return c,
     mkWorld (mkDatabase (users d) (blog_posts d) (comments d ++ [c]))
             (session_user_id w) (flashes w)).

Definition set_post_fields (ttl sub img bdy : string) (p : BlogPost.t)
  : BlogPost.t :=
  BlogPost.mk (BlogPost.id p) ttl sub (BlogPost.date p) bdy img
              (BlogPost.author_id p).

(** The four attribute assignments of [edit_post] followed by
    [db.session.commit()]: the row whose primary key is [pid] is rewritten,
    unless another row already carries the new title. *)
Definition update_blog_post (pid : nat) (ttl sub img bdy : string) : M unit :=
  fun w =>
    let d := db w in
    if existsb (fun p => negb (BlogPost.id p =? pid)
                         && String.eqb (BlogPost.title p) ttl) (blog_posts d)
    then (Raise IntegrityError, w)
    else
      (Return tt,
       mkWorld (mkDatabase (users d)
                  (map (fun p => if BlogPost.id p =? pid
                                 then set_post_fields ttl sub img bdy p
                                 else p) (blog_posts d))
                  (comments d))
               (session_user_id w) (flashes w)).

Definition detach_comment (pid : nat) (c : Comment.t) : Comment.t :=
  match Comment.blog_id c with
  | Some b =>
      if b =? pid
      then Comment.mk (Comment.id c) (Comment.text c) (Comment.commenter_id c) None
      else c
  | None => c
  end.

(** [db.session.delete(post); db.session.commit()]. Deleting [None] is
    refused by the session. The [comments] relationship has no delete
    cascade, so the ORM detaches the post's comments by setting their
    [blog_id] to NULL and then removes the post row. *)
Definition delete_blog_post (post : option BlogPost.t) : M unit :=
  fun w =>
    match post with
    | None => (Raise UnmappedInstanceError, w)
    | Some p =>
        let d := db w in
        let pid := BlogPost.id p in
        (Return tt,
         mkWorld (mkDatabase (users d)
                    (filter (fun q => negb (BlogPost.id q =? pid)) (blog_posts d))
                    (map (detach_comment pid) (comments d)))
                 (session_user_id w) (flashes w))
    end.

(** ** flask_login and flask helpers *)

(** [current_user]: the user the [user_loader] resolves the session id to,
    or flask_login's anonymous user. *)
Inductive Identity : Type :=
| Authenticated (u : User.t)
| Anonymous.

(** [load_user] *)
Definition load_user (d : Database) (user_id : nat) : option User.t :=
  User_query_get d user_id.

Definition resolve_identity (w : World) : Identity :=
  match session_user_id w with
  | Some i =>
      match load_user (db w) i with
      | Some u => Authenticated u
      | None => Anonymous
      end
  | None => Anonymous
  end.

Definition current_user : M Identity := fun w => (Return (resolve_identity w), w).

Definition is_authenticated (cu : Identity) : bool :=
  match cu with Authenticated _ => true | Anonymous => false end.

Definition is_anonymous (cu : Identity) : bool := negb (is_authenticated cu).

(** [current_user.id]: the anonymous user has no such attribute. *)
Definition attr_id (cu : Identity) : M nat :=
  match cu with
  | Authenticated u => ret (User.id u)
  | Anonymous => raise AttributeError
  end.

Definition login_user (u : User.t) : M unit :=
  fun w => (Return tt, mkWorld (db w) (Some (User.id u)) (flashes w)).

Definition logout_user : M unit :=
  fun w => (Return tt, mkWorld (db w) None (flashes w)).

Definition flash (msg : string) : M unit :=
  fun w => (Return tt, mkWorld (db w) (session_user_id w) (flashes w ++ [msg])).

Definition abort {A} (code : nat) : M A := raise (HTTPException code).

(** ** Third-party functions

    [generate_password_hash password method salt_length] draws a random
    salt; the salt drawn is the explicit last argument here.
    [check_password_hash pwhash password], [DataRequired] and [URL] are the
    werkzeug and wtforms functions of the same names. *)
Class Libraries : Type := mkLibraries
  { generate_password_hash : string -> string -> nat -> string -> string;
    check_password_hash : string -> string -> bool;
    DataRequired : string -> bool;
    URL : string -> bool }.

(** ** Forms (forms.py) *)

Inductive Method : Type := GET | POST.

(** What a FlaskForm reads from the request besides its own fields. *)
Record Request : Type := mkRequest
  { method : Method;
    csrf_valid : bool }.

(** [FlaskForm.is_submitted] *)
Definition is_submitted (r : Request) : bool :=
  match method r with POST => true | GET => false end.

Module CreatePostForm.
Record t : Type := mk
  { request : Request;
    title : string;
    subtitle : string;
    img_url : string;
    body : string }.

Definition validate `{Libraries} (f : t) : bool :=
  csrf_valid (request f)
  && DataRequired (title f)
  && DataRequired (subtitle f)
  && (DataRequired (img_url f) && URL (img_url f))
  && DataRequired (body f).

Definition validate_on_submit `{Libraries} (f : t) : bool :=
  is_submitted (request f) && validate f.
End CreatePostForm.

Module RegisterForm.
Record t : Type := mk
  { request : Request;
    email : string;
    password : string;
    name : string }.

Definition validate `{Libraries} (f : t) : bool :=
  csrf_valid (request f)
  && DataRequired (email f)
  && DataRequired (password f)
  && DataRequired (name f).

Definition validate_on_submit `{Libraries} (f : t) : bool :=
  is_submitted (request f) && validate f.
End RegisterForm.

Module LoginForm.
Record t : Type := mk
  { request : Request;
    email : string;
    password : string }.

Definition validate `{Libraries} (f : t) : bool :=
  csrf_valid (request f)
  && DataRequired (email f)
  && DataRequired (password f).

Definition validate_on_submit `{Libraries} (f : t) : bool :=
  is_submitted (request f) && validate f.
End LoginForm.

Module CommentForm.
Record t : Type := mk
  { request : Request;
    comment : string }.

Definition validate `{Libraries} (f : t) : bool :=
  csrf_valid (request f) && DataRequired (comment f).

Definition validate_on_submit `{Libraries} (f : t) : bool :=
  is_submitted (request f) && validate f.
End CommentForm.

(** ** Responses *)

(** The targets of [url_for]. *)
Inductive Endpoint : Type :=
| url_login
| url_get_all_posts
| url_show_post (post_id : nat).

(** The calls of [render_template], one constructor per template, with the
    keyword arguments in source order. *)
Inductive Page : Type :=
| index_html (all_posts : list BlogPost.t) (users : list User.t) (logged_in : bool)
| register_html (form : RegisterForm.t) (logged_in : bool)
| login_html (form : LoginForm.t) (logged_in : bool)
| post_html (post : option BlogPost.t) (users : list User.t)
            (comment_form : CommentForm.t) (logged_in : bool)
            (comments : list Comment.t)
| about_html (logged_in : bool)
| contact_html (logged_in : bool)
| make_post_html (form : CreatePostForm.t) (logged_in : bool).

Inductive Response : Type :=
| redirect (target : Endpoint)
| render_template (page : Page)
| html (markup : string).

(** The status line Flask answers with. *)
Definition status_code (r : Result Response) : nat :=
  match r with
  | Return (redirect _) => 302
  | Return _ => 200
  | Raise (HTTPException code) => code
  | Raise _ => 500
  end.

(** ** Views (main.py) *)

(** Running a query against the current database. *)
Definition query {A} (q : Database -> A) : M A :=
  fun w => (Return (q (db w)), w).

Section Views.
Context `{Libraries}.

(** The argument [logged_in=current_user.is_authenticated]. *)
Definition logged_in_now : M bool :=
  cu <- current_user ;; ret (is_authenticated cu).

(** [admin_only] *)
Definition admin_only (func : M Response) : M Response :=
  try_except_AttributeError
    (cu <- current_user ;;
     i <- attr_id cu ;;
     if i =? 1 then func else abort 403)
    (ret (html "<h1> need to log in first </h1>")).

Definition get_all_posts : M Response :=
  posts <- query blog_posts ;;
  all_users <- query users ;;
  logged_in <- logged_in_now ;;
  ret (render_template (index_html posts all_users logged_in)).

Definition register (form : RegisterForm.t) (salt : string) : M Response :=
  if RegisterForm.validate_on_submit form then
    existing <- query (fun d =>
      User_query_filter_by_email_first d (RegisterForm.email form)) ;;
    match existing with
    | Some _ =>
        flash "That email already exist in db!" ;;;
        ret (redirect url_login)
    | None =>
        let hashed_password :=
          generate_password_hash (RegisterForm.password form)
                                 "pbkdf2:sha256" 8 salt in
        new_user <- insert_user (RegisterForm.name form)
                                (RegisterForm.email form) hashed_password ;;
        login_user new_user ;;;
        ret (redirect url_get_all_posts)
    end
  else
    logged_in <- logged_in_now ;;
    ret (render_template (register_html form logged_in)).

Definition login (form : LoginForm.t) : M Response :=
  if LoginForm.validate_on_submit form then
    found <- query (fun d =>
      User_query_filter_by_email_first d (LoginForm.email form)) ;;
    match found with
    | Some user =>
        let user_password := User.password user in
        if check_password_hash user_password (LoginForm.password form) then
          login_user user ;;;
          ret (redirect url_get_all_posts)
        else
          flash "Wrong Password!" ;;;
          ret (redirect url_login)
    | None =>
        flash "Wrong Entry!" ;;;
        ret (redirect url_login)
    end
  else
    logged_in <- logged_in_now ;;
    ret (render_template (login_html form logged_in)).

Definition logout : M Response :=
  logout_user ;;;
  ret (redirect url_get_all_posts).

Definition show_post (post_id : nat) (comment_form : CommentForm.t)
  : M Response :=
  requested_post <- query (fun d => BlogPost_query_get d post_id) ;;
  all_users <- query users ;;
  if CommentForm.validate_on_submit comment_form then
    cu <- current_user ;;
    if negb (is_anonymous cu) then
      commenter <- attr_id cu ;;
      insert_comment (CommentForm.comment comment_form) post_id commenter ;;;
      ret (redirect (url_show_post post_id))
    else
      flash "Need to log in to comment!" ;;;
      ret (redirect url_login)
  else
    all_comments <- query comments ;;
    let blog_comments :=
      filter (fun ct => match Comment.blog_id ct with
                        | Some b => b =? post_id
                        | None => false
                        end) all_comments in
    logged_in <- logged_in_now ;;
    ret (render_template
           (post_html requested_post all_users comment_form logged_in
                      blog_comments)).

Definition about : M Response :=
  logged_in <- logged_in_now ;; ret (render_template (about_html logged_in)).

Definition contact : M Response :=
  logged_in <- logged_in_now ;; ret (render_template (contact_html logged_in)).

(** [today] is [date.today().strftime("%B %d, %Y")]. [author=current_user]
    stores the current user's id; the anonymous user is no mapped row and
    has no id to store. *)
Definition add_new_post (form : CreatePostForm.t) (today : string)
  : M Response :=
  if CreatePostForm.validate_on_submit form then
    cu <- current_user ;;
    author <- attr_id cu ;;
    insert_blog_post (CreatePostForm.title form) (CreatePostForm.subtitle form)
                     (CreatePostForm.body form) (CreatePostForm.img_url form)
                     author today ;;;
    ret (redirect url_get_all_posts)
  else
    logged_in <- logged_in_now ;;
    ret (render_template (make_post_html form logged_in)).

(** [post.title] and the other attribute reads on the row just fetched:
    [None] has no attributes. *)
Definition attrs_of_post (post : option BlogPost.t) : M BlogPost.t :=
  match post with
  | Some p => ret p
  | None => raise AttributeError
  end.

(** [submitted] holds the fields as the request carries them; the form is
    filled from them on a submission and from the post otherwise. *)
Definition edit_post (post_id : nat) (submitted : CreatePostForm.t)
  : M Response :=
  found <- query (fun d => BlogPost_query_get d post_id) ;;
  post <- attrs_of_post found ;;
  let edit_form :=
    if is_submitted (CreatePostForm.request submitted) then submitted
    else CreatePostForm.mk (CreatePostForm.request submitted)
                           (BlogPost.title post) (BlogPost.subtitle post)
                           (BlogPost.img_url post) (BlogPost.body post) in
  if CreatePostForm.validate_on_submit edit_form then
    update_blog_post (BlogPost.id post)
                     (CreatePostForm.title edit_form)
                     (CreatePostForm.subtitle edit_form)
                     (CreatePostForm.img_url edit_form)
                     (CreatePostForm.body edit_form) ;;;
    ret (redirect (url_show_post (BlogPost.id post)))
  else
    logged_in <- logged_in_now ;;
    ret (render_template (make_post_html edit_form logged_in)).

Definition delete_post (post_id : nat) : M Response :=
  post_to_delete <- query (fun d => BlogPost_query_get d post_id) ;;
  delete_blog_post post_to_delete ;;;
  ret (redirect url_get_all_posts).

(** The three routes decorated with [@admin_only]. *)
Inductive AdminRoute : Type :=
| new_post (form : CreatePostForm.t) (today : string)
| edit_post_route (post_id : nat) (submitted : CreatePostForm.t)
| delete_route (post_id : nat).

Definition undecorated (r : AdminRoute) : M Response :=
  match r with
  | new_post form today => add_new_post form today
  | edit_post_route post_id submitted => edit_post post_id submitted
  | delete_route post_id => delete_post post_id
  end.

Definition serve_admin (r : AdminRoute) : M Response :=
  admin_only (undecorated r).
End Views.

(** ** Requests as operations on the world *)

Inductive Operation : Type :=
| GET_index
| on_register (form : RegisterForm.t) (salt : string)
| on_login (form : LoginForm.t)
| GET_logout
| on_post (post_id : nat) (comment_form : CommentForm.t)
| GET_about
| GET_contact
| on_admin (r : AdminRoute).

Definition run `{Libraries} (op : Operation) : M Response :=
  match op with
  | GET_index => get_all_posts
  | on_register form salt => register form salt
  | on_login form => login form
  | GET_logout => logout
  | on_post post_id comment_form => show_post post_id comment_form
  | GET_about => about
  | GET_contact => contact
  | on_admin r => serve_admin r
  end.

Definition run_all `{Libraries} (ops : list Operation) (w : World) : World :=
  fold_left (fun w' op => snd (run op w')) ops w.

(** The one request singled out below: a comment form that validates, sent
    by a logged-in user to a post id that resolves to no post. *)
Definition comments_on_missing_post `{Libraries} (op : Operation) (w : World)
  : bool :=
  match op with
  | on_post post_id comment_form =>
      CommentForm.validate_on_submit comment_form
      && is_authenticated (resolve_identity w)
      && match BlogPost_query_get (db w) post_id with
         | Some _ => false
         | None => true
         end
  | _ => false
  end.

(** The worlds reached from [start] by requests other than that one. *)
Inductive Reachable `{Libraries} (start : World) : World -> Prop :=
| reach_start : Reachable start start
| reach_step (w : World) (op : Operation) :
    Reachable start w ->
    comments_on_missing_post op w = false ->
    Reachable start (snd (run op w)).

(** Every comment's [blog_id] is NULL or the id of a stored post. *)
Definition comments_reference_posts_or_null (d : Database) : Prop :=
  forall c b, In c (comments d) -> Comment.blog_id c = Some b ->
    exists post, BlogPost_query_get d b = Some post.


(** ** A small instance of the libraries

    It keeps werkzeug's [method$salt$digest] layout with a digest that can
    be evaluated, so that the views run on concrete requests. *)

Definition sample_digest (salt password : string) : string :=
  String.append salt (String.append "/" password).

Definition sample_generate_password_hash
  (password method : string) (salt_length : nat) (salt : string) : string :=
  String.append method
    (String.append "$" (String.append salt
       (String.append "$" (sample_digest salt password)))).

Fixpoint between_dollars (s : string) : string :=
  match s with
  | EmptyString => EmptyString
  | String c rest =>
      if Ascii.eqb c "$"%char then EmptyString
      else String c (between_dollars rest)
  end.

Fixpoint after_first_dollar (s : string) : string :=
  match s with
  | EmptyString => EmptyString
  | String c rest =>
      if Ascii.eqb c "$"%char then rest else after_first_dollar rest
  end.

Definition sample_check_password_hash (pwhash password : string) : bool :=
  let salt := between_dollars (after_first_dollar pwhash) in
  String.eqb (after_first_dollar (after_first_dollar pwhash))
             (sample_digest salt password).

Definition nonblank (s : string) : bool :=
  negb (String.eqb s "").

Definition sample_libraries : Libraries :=
  {| generate_password_hash := sample_generate_password_hash;
     check_password_hash := sample_check_password_hash;
     DataRequired := nonblank;
     URL := String.prefix "http" |}.

(** ** Sample data *)

Definition post_request : Request := mkRequest POST true.

Definition ada : User.t :=
  User.mk 1 "Ada" "ada@example.org"
          (sample_generate_password_hash "s3cret" "pbkdf2:sha256" 8 "Zq3xY7Lm").

Definition bob : User.t :=
  User.mk 2 "Bob" "bob@example.org"
          (sample_generate_password_hash "hunter2" "pbkdf2:sha256" 8 "aB9dE2fG").

Definition derby : BlogPost.t :=
  BlogPost.mk 1 "Derby day" "A night at the stadium" "May 01, 2023"
              "<p>Match report</p>" "https://example.org/derby.jpg" (Some 1).

Definition transfer : BlogPost.t :=
  BlogPost.mk 2 "Transfer news" "Summer window" "June 12, 2023"
              "<p>Rumours</p>" "https://example.org/transfer.jpg" (Some 1).

Definition cheer : Comment.t :=
  Comment.mk 1 "<p>Great win</p>" (Some 2) (Some 1).

Definition empty_world : World := mkWorld (mkDatabase [] [] []) None [].

Definition sample_db : Database :=
  mkDatabase [ada; bob] [derby; transfer] [cheer].

Definition world_as (session : option nat) : World :=
  mkWorld sample_db session [].

Definition draft (ttl : string) : CreatePostForm.t :=
  CreatePostForm.mk post_request ttl "Subtitle" "https://example.org/new.jpg"
                    "<p>Text</p>".

Definition signup (nm em pw : string) : RegisterForm.t :=
  RegisterForm.mk post_request em pw nm.

Definition credentials (em pw : string) : LoginForm.t :=
  LoginForm.mk post_request em pw.

(** The body the decorator answers with when the identity has no [id]. *)
Definition need_to_log_in : Response := html "<h1> need to log in first </h1>".

Definition remark (txt : string) : CommentForm.t :=
  CommentForm.mk post_request txt.

(** What the response of a failed login would be if the form were rendered
    again by the same request. *)
Definition renders_login_form (r : Result Response) : Prop :=
  exists form logged_in, r = Return (render_template (login_html form logged_in)).

(** Every comment's [blog_id] is the id of a stored post. *)
Definition comments_reference_posts (d : Database) : Prop :=
  forall c, In c (comments d) ->
    exists b post, Comment.blog_id c = Some b
                   /\ BlogPost_query_get d b = Some post.

(** Ada signs up on an empty database and comments on post 7. *)
Definition stray_comment_run : list Operation :=
  [ on_register (signup "Ada" "ada@example.org" "s3cret") "Zq3xY7Lm";
    on_post 7 (remark "<p>First!</p>") ].

(** Ada signs up, writes a post, comments on it and deletes it. *)
Definition delete_commented_run : list Operation :=
  [ on_register (signup "Ada" "ada@example.org" "s3cret") "Zq3xY7Lm";
    on_admin (new_post (draft "Derby day") "May 01, 2023");
    on_post 1 (remark "<p>Great win</p>");
    on_admin (delete_route 1) ].

(** ** Vocabulary for the properties of whole requests *)

(** The requester is the user with id 1. *)
Definition is_admin (w : World) : Prop :=
  exists u, resolve_identity w = Authenticated u /\ User.id u = 1.

(** Requests that carry no submitted form and are neither a logout nor a
    delete. *)
Definition unsubmitted (op : Operation) : bool :=
  match op with
  | GET_index | GET_about | GET_contact => true
  | on_register form _ => negb (is_submitted (RegisterForm.request form))
  | on_login form => negb (is_submitted (LoginForm.request form))
  | on_post _ comment_form =>
      negb (is_submitted (CommentForm.request comment_form))
  | on_admin (new_post form _) =>
      negb (is_submitted (CreatePostForm.request form))
  | on_admin (edit_post_route _ submitted) =>
      negb (is_submitted (CreatePostForm.request submitted))
  | on_admin (delete_route _) => false
  | GET_logout => false
  end.

(** The primary keys and the two [unique=True] columns hold no value
    twice. *)
Definition keys_unique (d : Database) : Prop :=
  NoDup (map User.id (users d))
  /\ NoDup (map User.email (users d))
  /\ NoDup (map BlogPost.id (blog_posts d))
  /\ NoDup (map BlogPost.title (blog_posts d))
  /\ NoDup (map Comment.id (comments d)).

(** Every post has an author and every comment a commenter among the
    stored users. *)
Definition writers_exist (d : Database) : Prop :=
  (forall p, In p (blog_posts d) ->
     exists a, BlogPost.author_id p = Some a /\ In a (map User.id (users d)))
  /\ (forall c, In c (comments d) ->
        exists a, Comment.commenter_id c = Some a
                  /\ In a (map User.id (users d))).

(** The id kept in the session, if any, is the id of a stored user. *)
Definition session_resolves (w : World) : Prop :=
  forall i, session_user_id w = Some i -> In i (map User.id (users (db w))).

(** The row a comment submission stores. *)
Definition new_comment (w : World) (post_id : nat) (comment_form : CommentForm.t)
  (u : User.t) : Comment.t :=
  Comment.mk (next_id (map Comment.id (comments (db w))))
             (CommentForm.comment comment_form)
             (Some (User.id u)) (Some post_id).

(** The row a new-post submission stores. *)
Definition new_blog_post (w : World) (form : CreatePostForm.t) (today : string)
  (author : nat) : BlogPost.t :=
  BlogPost.mk (next_id (map BlogPost.id (blog_posts (db w))))
              (CreatePostForm.title form) (CreatePostForm.subtitle form)
              today (CreatePostForm.body form) (CreatePostForm.img_url form)
              (Some author).

(** The comments a post page lists. *)
Definition comments_of (post_id : nat) (l : list Comment.t) : list Comment.t :=
  filter (fun ct => match Comment.blog_id ct with
                    | Some b => b =? post_id
                    | None => false
                    end) l.

(** The one database write a request can make; [Write w op d] says that
    [op], run in [w], is of the given kind and that [d] is [db w] after
    it. *)
Inductive Write (w : World) : Operation -> Database -> Prop :=
| write_user (form : RegisterForm.t) (salt : string) (u : User.t) :
    email_in_use (db w) (RegisterForm.email form) = false ->
    User.id u = next_id (map User.id (users (db w))) ->
    User.email u = RegisterForm.email form ->
    Write w (on_register form salt)
          (mkDatabase (users (db w) ++ [u]) (blog_posts (db w)) (comments (db w)))
| write_comment (post_id : nat) (comment_form : CommentForm.t) (u : User.t) :
    resolve_identity w = Authenticated u ->
    Write w (on_post post_id comment_form)
          (mkDatabase (users (db w)) (blog_posts (db w))
                      (comments (db w) ++ [new_comment w post_id comment_form u]))
| write_post (form : CreatePostForm.t) (today : string) :
    is_admin w ->
    title_in_use (db w) (CreatePostForm.title form) = false ->
    Write w (on_admin (new_post form today))
          (mkDatabase (users (db w))
                      (blog_posts (db w) ++ [new_blog_post w form today 1])
                      (comments (db w)))
| write_edit (post_id : nat) (submitted : CreatePostForm.t) (post : BlogPost.t) :
    is_admin w ->
    BlogPost_query_get (db w) post_id = Some post ->
    existsb (fun p => negb (BlogPost.id p =? post_id)
                      && String.eqb (BlogPost.title p)
                                    (CreatePostForm.title submitted))
            (blog_posts (db w)) = false ->
    Write w (on_admin (edit_post_route post_id submitted))
          (mkDatabase (users (db w))
             (map (fun p => if BlogPost.id p =? post_id
                            then set_post_fields
                                   (CreatePostForm.title submitted)
                                   (CreatePostForm.subtitle submitted)
                                   (CreatePostForm.img_url submitted)
                                   (CreatePostForm.body submitted) p
                            else p) (blog_posts (db w)))
             (comments (db w)))
| write_delete (post_id : nat) (post : BlogPost.t) :
    is_admin w ->
    BlogPost_query_get (db w) post_id = Some post ->
    Write w (on_admin (delete_route post_id))
          (mkDatabase (users (db w))
             (filter (fun q => negb (BlogPost.id q =? post_id)) (blog_posts (db w)))
             (map (detach_comment post_id) (comments (db w)))).

(** Whether the form a request carries passes its validators (forms.py);
    requests without a form count as passing. *)
Definition form_passes `{Libraries} (op : Operation) : bool :=
  match op with
  | on_register form _ => RegisterForm.validate form
  | on_login form => LoginForm.validate form
  | on_post _ comment_form => CommentForm.validate comment_form
  | on_admin (new_post form _) => CreatePostForm.validate form
  | on_admin (edit_post_route _ submitted) => CreatePostForm.validate submitted
  | on_admin (delete_route _) => true
  | GET_index | GET_logout | GET_about | GET_contact => true
  end.

(** ** Facts about the database layer *)

Lemma next_id_above (ids : list nat) (x : nat) :
  In x ids -> x < next_id ids.
Proof.
  unfold next_id. induction ids as [|y ys IH]; simpl; [tauto|].
  intros [->|Hx]; [lia|]. specialize (IH Hx). lia.
Qed.

Lemma next_id_fresh (ids : list nat) : ~ In (next_id ids) ids.
Proof.
  intros Hin. apply next_id_above in Hin. lia.
Qed.

Lemma find_none_app {A} (f : A -> bool) (l : list A) (a : A) :
  find f l = None -> find f (l ++ [a]) = if f a then Some a else None.
Proof.
  induction l as [|x xs IH]; simpl; [reflexivity|].
  destruct (f x); [discriminate|exact IH].
Qed.

Lemma find_id_none_of_fresh (l : list User.t) (i : nat) :
  ~ In i (map User.id l) -> find (fun u => User.id u =? i) l = None.
Proof.
  induction l as [|x xs IH]; simpl; [reflexivity|].
  intros Hn. destruct (Nat.eqb_spec (User.id x) i) as [E|E].
  - exfalso. apply Hn. now left.
  - apply IH. intros Hin. apply Hn. now right.
Qed.

Lemma email_in_use_spec (d : Database) (e : string) :
  email_in_use d e = true <->
  exists u, In u (users d) /\ User.email u = e.
Proof.
  unfold email_in_use. rewrite existsb_exists. split.
  - intros (u & Hin & Heq). exists u. split; [exact Hin|].
    now apply String.eqb_eq.
  - intros (u & Hin & Heq). exists u. split; [exact Hin|].
    now apply String.eqb_eq.
Qed.

Lemma filter_by_email_none_iff (d : Database) (e : string) :
  User_query_filter_by_email_first d e = None <-> email_in_use d e = false.
Proof.
  unfold User_query_filter_by_email_first, email_in_use.
  induction (users d) as [|x xs IH]; simpl; [tauto|].
  destruct (String.eqb (User.email x) e); simpl.
  - split; discriminate.
  - exact IH.
Qed.

Lemma filter_by_email_some (d : Database) (e : string) (u : User.t) :
  User_query_filter_by_email_first d e = Some u ->
  In u (users d) /\ User.email u = e.
Proof.
  unfold User_query_filter_by_email_first. intros Hf.
  apply find_some in Hf. destruct Hf as [Hin Heq].
  split; [exact Hin|]. now apply String.eqb_eq.
Qed.

Lemma get_by_unique_id (l : list User.t) (u : User.t) :
  NoDup (map User.id l) -> In u l ->
  find (fun v => User.id v =? User.id u) l = Some u.
Proof.
  induction l as [|x xs IH]; simpl; [tauto|].
  intros Hnd Hin. inversion Hnd as [|? ? Hx Hxs]; subst.
  destruct Hin as [->|Hin].
  - now rewrite Nat.eqb_refl.
  - destruct (Nat.eqb_spec (User.id x) (User.id u)) as [E|E].
    + exfalso. apply Hx. rewrite E. now apply in_map.
    + now apply IH.
Qed.

Lemma post_get_some (d : Database) (i : nat) (p : BlogPost.t) :
  BlogPost_query_get d i = Some p -> In p (blog_posts d) /\ BlogPost.id p = i.
Proof.
  unfold BlogPost_query_get. intros Hf. apply find_some in Hf.
  destruct Hf as [Hin Heq]. split; [exact Hin|]. now apply Nat.eqb_eq.
Qed.

Lemma title_in_use_spec (d : Database) (t : string) :
  title_in_use d t = true <->
  exists p, In p (blog_posts d) /\ BlogPost.title p = t.
Proof.
  unfold title_in_use. rewrite existsb_exists. split.
  - intros (p & Hin & Heq). exists p. split; [exact Hin|].
    now apply String.eqb_eq.
  - intros (p & Hin & Heq). exists p. split; [exact Hin|].
    now apply String.eqb_eq.
Qed.

Lemma string_length_append (a b : string) :
  String.length (String.append a b) = String.length a + String.length b.
Proof.
  induction a as [|c a IH]; simpl; [reflexivity|]. now rewrite IH.
Qed.

Lemma sample_hash_differs (p m : string) (n : nat) (s : string) :
  sample_generate_password_hash p m n s <> p.
Proof.
  intros E. apply (f_equal String.length) in E.
  unfold sample_generate_password_hash, sample_digest in E.
  repeat rewrite string_length_append in E. simpl in E. lia.
Qed.


(** ** The authorization gate *)

Lemma admin_only_admin `{Libraries} (func : M Response) (w : World) (u : User.t) :
  resolve_identity w = Authenticated u -> User.id u = 1 ->
  admin_only func w = try_except_AttributeError func (ret need_to_log_in) w.
Proof.
  intros Hid Hone.
  unfold admin_only, try_except_AttributeError, bind, current_user.
  rewrite Hid. simpl. unfold ret at 1. rewrite Hone. simpl. reflexivity.
Qed.

Lemma admin_only_other `{Libraries} (func : M Response) (w : World) (u : User.t) :
  resolve_identity w = Authenticated u -> User.id u <> 1 ->
  admin_only func w = (Raise (HTTPException 403), w).
Proof.
  intros Hid Hne.
  unfold admin_only, try_except_AttributeError, bind, current_user.
  rewrite Hid. simpl. unfold ret at 1.
  destruct (Nat.eqb_spec (User.id u) 1) as [E|E]; [contradiction|].
  reflexivity.
Qed.

Lemma admin_only_anonymous `{Libraries} (func : M Response) (w : World) :
  resolve_identity w = Anonymous ->
  admin_only func w = (Return need_to_log_in, w).
Proof.
  intros Hid.
  unfold admin_only, try_except_AttributeError, bind, current_user.
  rewrite Hid. reflexivity.
Qed.

(** C1. On the new-post, edit-post and delete-post routes: when the
    requester is authenticated with user id 1 the decorated view is the
    undecorated view run on the same state (inside the decorator's
    [try]); when the requester is authenticated with another id the
    outcome is [abort(403)], whatever the view, and the state is left as it
    was; when the requester is anonymous the outcome is the plain
    need-to-log-in markup with status 200, whatever the view, and the state
    is left as it was. *)
Theorem admin_routes_gate `{Libraries} (r : AdminRoute) (w : World) :
  (forall u, resolve_identity w = Authenticated u -> User.id u = 1 ->
     serve_admin r w =
       match undecorated r w with
       | (Raise AttributeError, w') => (Return need_to_log_in, w')
       | ran => ran
       end)
  /\ (forall u, resolve_identity w = Authenticated u -> User.id u <> 1 ->
        forall func, admin_only func w = serve_admin r w
                     /\ serve_admin r w = (Raise (HTTPException 403), w)
                     /\ status_code (fst (serve_admin r w)) = 403)
  /\ (resolve_identity w = Anonymous ->
        forall func, admin_only func w = serve_admin r w
                     /\ serve_admin r w = (Return need_to_log_in, w)
                     /\ status_code (fst (serve_admin r w)) = 200).
Proof.
  unfold serve_admin. repeat split.
  - intros u Hid Hone. now rewrite (admin_only_admin _ w u Hid Hone).
  - now rewrite !(admin_only_other _ w u).
  - now rewrite (admin_only_other _ w u).
  - now rewrite (admin_only_other _ w u).
  - now rewrite !admin_only_anonymous.
  - now rewrite admin_only_anonymous.
  - now rewrite admin_only_anonymous.
Qed.

Lemma admin_routes_gate_witness :
  serve_admin (H := sample_libraries) (delete_route 2) (world_as (Some 1))
    = (Return (redirect url_get_all_posts),
       mkWorld (mkDatabase [ada; bob] [derby] [cheer]) (Some 1) [])
  /\ serve_admin (H := sample_libraries) (delete_route 2) (world_as (Some 2))
     = (Raise (HTTPException 403), world_as (Some 2))
  /\ serve_admin (H := sample_libraries) (delete_route 2) (world_as None)
     = (Return need_to_log_in, world_as None).
Proof.
  destruct (admin_routes_gate (H := sample_libraries) (delete_route 2)
              (world_as (Some 1))) as [Hadmin _].
  destruct (admin_routes_gate (H := sample_libraries) (delete_route 2)
              (world_as (Some 2))) as [_ [Hother _]].
  destruct (admin_routes_gate (H := sample_libraries) (delete_route 2)
              (world_as None)) as [_ [_ Hanon]].
  split; [|split].
  - rewrite (Hadmin ada); reflexivity.
  - apply (Hother bob); [reflexivity | simpl; lia | exact (ret need_to_log_in)].
  - apply Hanon; [reflexivity | exact (ret need_to_log_in)].
Defined.

(** C10. When the administrator asks to edit a post id that resolves to no
    row, reading the attributes of the missing post raises
    [AttributeError] inside the view, the decorator's handler answers with
    the plain need-to-log-in markup, and the database, the session and the
    flashed messages are exactly what they were. *)
Theorem edit_missing_post_answer `{Libraries}
  (post_id : nat) (submitted : CreatePostForm.t) (w : World) (u : User.t) :
  resolve_identity w = Authenticated u -> User.id u = 1 ->
  BlogPost_query_get (db w) post_id = None ->
  edit_post post_id submitted w = (Raise AttributeError, w)
  /\ serve_admin (edit_post_route post_id submitted) w
     = (Return (html "<h1> need to log in first </h1>"), w).
Proof.
  intros Hid Hone Hget.
  assert (Hraw : edit_post post_id submitted w = (Raise AttributeError, w)).
  { unfold edit_post, bind, query. rewrite Hget. reflexivity. }
  split; [exact Hraw|].
  unfold serve_admin. rewrite (admin_only_admin _ w u Hid Hone).
  unfold try_except_AttributeError. simpl undecorated. rewrite Hraw.
  reflexivity.
Qed.

Lemma edit_missing_post_answer_witness :
  serve_admin (H := sample_libraries) (edit_post_route 7 (draft "Cup final"))
              (world_as (Some 1))
  = (Return (html "<h1> need to log in first </h1>"), world_as (Some 1)).
Proof.
  apply (edit_missing_post_answer (H := sample_libraries) 7 (draft "Cup final")
           (world_as (Some 1)) ada); reflexivity.
Defined.


(** ** Registration *)

(** C2. A registration form that validates and whose email no stored user
    has creates exactly one user row, appended under an id no other row
    has, with the submitted name and email; its password column holds
    [generate_password_hash(password, "pbkdf2:sha256", 8)] and, the hasher
    never returning its input, not the submitted password; the session then
    resolves to the new user; the response redirects to the post list.
    Posts, comments and flashed messages are untouched. *)
Theorem register_fresh_email `{Libraries}
  (form : RegisterForm.t) (salt : string) (w : World) :
  RegisterForm.validate_on_submit form = true ->
  (forall u, In u (users (db w)) -> User.email u <> RegisterForm.email form) ->
  (forall p m n s, generate_password_hash p m n s <> p) ->
  exists new_user w',
    register form salt w = (Return (redirect url_get_all_posts), w')
    /\ users (db w') = users (db w) ++ [new_user]
    /\ ~ In (User.id new_user) (map User.id (users (db w)))
    /\ User.name new_user = RegisterForm.name form
    /\ User.email new_user = RegisterForm.email form
    /\ User.password new_user
       = generate_password_hash (RegisterForm.password form) "pbkdf2:sha256" 8 salt
    /\ User.password new_user <> RegisterForm.password form
    /\ resolve_identity w' = Authenticated new_user
    /\ blog_posts (db w') = blog_posts (db w)
    /\ comments (db w') = comments (db w)
    /\ flashes w' = flashes w.
Proof.
  intros Hvalid Hfresh Hhash.
  assert (Huse : email_in_use (db w) (RegisterForm.email form) = false).
  { destruct (email_in_use (db w) (RegisterForm.email form)) eqn:E; [|reflexivity].
    apply email_in_use_spec in E. destruct E as (u & Hin & Heq).
    exfalso. exact (Hfresh u Hin Heq). }
  assert (Hnone := proj2 (filter_by_email_none_iff _ _) Huse).
  set (pw := generate_password_hash (RegisterForm.password form) "pbkdf2:sha256" 8 salt).
  set (u := User.mk (next_id (map User.id (users (db w))))
                    (RegisterForm.name form) (RegisterForm.email form) pw).
  exists u.
  exists (mkWorld (mkDatabase (users (db w) ++ [u]) (blog_posts (db w))
                              (comments (db w)))
                  (Some (User.id u)) (flashes w)).
  assert (Hid : ~ In (User.id u) (map User.id (users (db w))))
    by apply next_id_fresh.
  repeat split; try reflexivity.
  - unfold register. rewrite Hvalid. unfold bind, query. rewrite Hnone.
    unfold insert_user. rewrite Huse. reflexivity.
  - exact Hid.
  - apply Hhash.
  - unfold resolve_identity, load_user, User_query_get. simpl.
    rewrite find_none_app by (apply find_id_none_of_fresh; exact Hid).
    simpl. now rewrite Nat.eqb_refl.
Qed.

Lemma register_fresh_email_witness :
  exists new_user w',
    register (H := sample_libraries)
             (signup "Cem" "cem@example.org" "kadikoy1907") "Hq8rT2vN"
             (world_as None)
      = (Return (redirect url_get_all_posts), w')
    /\ users (db w') = [ada; bob; new_user]
    /\ User.id new_user = 3
    /\ resolve_identity w' = Authenticated new_user.
Proof.
  destruct (register_fresh_email (H := sample_libraries)
              (signup "Cem" "cem@example.org" "kadikoy1907") "Hq8rT2vN"
              (world_as None))
    as (u & w' & Hrun & Husers & _ & _ & _ & _ & _ & Hident & _).
  - reflexivity.
  - simpl. intros u [<-|[<-|[]]]; discriminate.
  - exact sample_hash_differs.
  - exists u, w'. repeat split; try assumption.
    unfold register in Hrun. simpl in Hrun. injection Hrun as <-.
    simpl in Husers. injection Husers as <-. reflexivity.
Defined.

(** C3. A registration form that validates and whose email a stored user
    already has creates no row (the database is unchanged), leaves the
    session as it was, flashes one message and redirects to the login
    page. *)
Theorem register_known_email `{Libraries}
  (form : RegisterForm.t) (salt : string) (w : World) (owner : User.t) :
  RegisterForm.validate_on_submit form = true ->
  In owner (users (db w)) ->
  User.email owner = RegisterForm.email form ->
  register form salt w
  = (Return (redirect url_login),
     mkWorld (db w) (session_user_id w)
             (flashes w ++ ["That email already exist in db!"%string])).
Proof.
  intros Hvalid Hin Hmail.
  unfold register. rewrite Hvalid. unfold bind, query.
  destruct (User_query_filter_by_email_first (db w) (RegisterForm.email form))
    as [found|] eqn:E.
  - reflexivity.
  - exfalso. apply filter_by_email_none_iff in E.
    assert (Hyes : email_in_use (db w) (RegisterForm.email form) = true).
    { apply email_in_use_spec. now exists owner. }
    congruence.
Qed.

Lemma register_known_email_witness :
  register (H := sample_libraries)
           (signup "Robert" "bob@example.org" "another") "Hq8rT2vN"
           (world_as None)
  = (Return (redirect url_login),
     mkWorld sample_db None ["That email already exist in db!"%string]).
Proof.
  apply (register_known_email (H := sample_libraries)
           (signup "Robert" "bob@example.org" "another") "Hq8rT2vN"
           (world_as None) bob).
  - reflexivity.
  - simpl. right. now left.
  - reflexivity.
Defined.


(** ** Comments *)

Lemma comment_insert_run `{Libraries}
  (post_id : nat) (comment_form : CommentForm.t) (w : World) (u : User.t) :
  CommentForm.validate_on_submit comment_form = true ->
  resolve_identity w = Authenticated u ->
  exists c,
    show_post post_id comment_form w
    = (Return (redirect (url_show_post post_id)),
       mkWorld (mkDatabase (users (db w)) (blog_posts (db w))
                           (comments (db w) ++ [c]))
               (session_user_id w) (flashes w))
    /\ Comment.blog_id c = Some post_id.
Proof.
  intros Hvalid Hid.
  eexists. split.
  - unfold show_post, bind, query, current_user.
    rewrite Hvalid, Hid. reflexivity.
  - reflexivity.
Qed.

(** C5. A comment form that validates, submitted on the page of post
    [post_id]: from an anonymous requester it creates no row (the database
    and the session are unchanged), flashes a message and redirects to the
    login page; from an authenticated requester it appends exactly one
    comment row, under an id no other comment has, whose [blog_id] is
    [post_id], whose [commenter_id] is the current user's id and whose text
    is the submitted one, and redirects back to the same post. *)
Theorem show_post_comment_submission `{Libraries}
  (post_id : nat) (comment_form : CommentForm.t) (w : World) :
  CommentForm.validate_on_submit comment_form = true ->
  (resolve_identity w = Anonymous ->
     show_post post_id comment_form w
     = (Return (redirect url_login),
        mkWorld (db w) (session_user_id w)
                (flashes w ++ ["Need to log in to comment!"%string])))
  /\ (forall u, resolve_identity w = Authenticated u ->
        exists c,
          show_post post_id comment_form w
          = (Return (redirect (url_show_post post_id)),
             mkWorld (mkDatabase (users (db w)) (blog_posts (db w))
                                 (comments (db w) ++ [c]))
                     (session_user_id w) (flashes w))
          /\ Comment.blog_id c = Some post_id
          /\ Comment.commenter_id c = Some (User.id u)
          /\ Comment.text c = CommentForm.comment comment_form
          /\ ~ In (Comment.id c) (map Comment.id (comments (db w)))).
Proof.
  intros Hvalid. split.
  - intros Hid. unfold show_post, bind, query, current_user.
    rewrite Hvalid, Hid. reflexivity.
  - intros u Hid.
    exists (Comment.mk (next_id (map Comment.id (comments (db w))))
                       (CommentForm.comment comment_form)
                       (Some (User.id u)) (Some post_id)).
    repeat split; try reflexivity.
    + unfold show_post, bind, query, current_user.
      rewrite Hvalid, Hid. reflexivity.
    + apply next_id_fresh.
Qed.

Lemma show_post_comment_submission_witness :
  show_post (H := sample_libraries) 2 (remark "<p>Who is coming?</p>")
            (world_as None)
  = (Return (redirect url_login),
     mkWorld sample_db None ["Need to log in to comment!"%string])
  /\ show_post (H := sample_libraries) 2 (remark "<p>Who is coming?</p>")
               (world_as (Some 2))
     = (Return (redirect (url_show_post 2)),
        mkWorld (mkDatabase [ada; bob] [derby; transfer]
                   [cheer; Comment.mk 2 "<p>Who is coming?</p>" (Some 2) (Some 2)])
                (Some 2) []).
Proof.
  split.
  - apply (show_post_comment_submission (H := sample_libraries) 2
             (remark "<p>Who is coming?</p>") (world_as None));
      reflexivity.
  - destruct (show_post_comment_submission (H := sample_libraries) 2
                (remark "<p>Who is coming?</p>") (world_as (Some 2)))
      as [_ Hauth]; [reflexivity|].
    destruct (Hauth bob) as (c & Hrun & _); [reflexivity|].
    reflexivity.
Defined.

(** ** Logging in *)

(** C6, as stated, fails on a wrong password: the login view answers a
    rejected submission with a redirect to the login route, not with the
    login template. *)
Lemma login_wrong_password_redirects :
  LoginForm.validate_on_submit (H := sample_libraries)
    (credentials "bob@example.org" "letmein") = true
  /\ User_query_filter_by_email_first sample_db "bob@example.org" = Some bob
  /\ check_password_hash (Libraries := sample_libraries)
       (User.password bob) "letmein" = false
  /\ fst (login (H := sample_libraries) (credentials "bob@example.org" "letmein")
                (world_as None))
     = Return (redirect url_login)
  /\ ~ renders_login_form
         (fst (login (H := sample_libraries)
                     (credentials "bob@example.org" "letmein") (world_as None))).
Proof.
  repeat split; try reflexivity.
  intros (form & logged_in & E). simpl in E. discriminate E.
Qed.

(** C6, amended. For a login form that validates: when the email resolves
    to a user whose stored hash the submitted password verifies against,
    the session user id becomes that user's id (and, ids being unique, the
    session resolves to that user), nothing else changes and the response
    redirects to the post list; when the password does not verify, or the
    email resolves to no user, the database and the session are unchanged,
    one message is flashed and the response redirects to the login route. *)
Theorem login_submission `{Libraries} (form : LoginForm.t) (w : World) :
  LoginForm.validate_on_submit form = true ->
  (forall user,
     User_query_filter_by_email_first (db w) (LoginForm.email form) = Some user ->
     check_password_hash (User.password user) (LoginForm.password form) = true ->
     login form w
     = (Return (redirect url_get_all_posts),
        mkWorld (db w) (Some (User.id user)) (flashes w))
     /\ (NoDup (map User.id (users (db w))) ->
         resolve_identity (snd (login form w)) = Authenticated user))
  /\ (forall user,
        User_query_filter_by_email_first (db w) (LoginForm.email form) = Some user ->
        check_password_hash (User.password user) (LoginForm.password form) = false ->
        login form w
        = (Return (redirect url_login),
           mkWorld (db w) (session_user_id w)
                   (flashes w ++ ["Wrong Password!"%string])))
  /\ ((forall u, In u (users (db w)) -> User.email u <> LoginForm.email form) ->
        login form w
        = (Return (redirect url_login),
           mkWorld (db w) (session_user_id w)
                   (flashes w ++ ["Wrong Entry!"%string]))).
Proof.
  intros Hvalid. split; [|split].
  - intros user Hfound Hcheck.
    assert (Hrun : login form w
                   = (Return (redirect url_get_all_posts),
                      mkWorld (db w) (Some (User.id user)) (flashes w))).
    { unfold login, bind, query. rewrite Hvalid, Hfound, Hcheck. reflexivity. }
    split; [exact Hrun|].
    intros Hnodup. rewrite Hrun.
    unfold resolve_identity, load_user, User_query_get. simpl.
    apply filter_by_email_some in Hfound. destruct Hfound as [Hin _].
    now rewrite (get_by_unique_id _ user Hnodup Hin).
  - intros user Hfound Hcheck.
    unfold login, bind, query. rewrite Hvalid, Hfound, Hcheck. reflexivity.
  - intros Hunknown.
    assert (Hnone : User_query_filter_by_email_first (db w) (LoginForm.email form)
                    = None).
    { destruct (User_query_filter_by_email_first (db w) (LoginForm.email form))
        as [u|] eqn:E; [|reflexivity].
      apply filter_by_email_some in E. destruct E as [Hin Heq].
      exfalso. exact (Hunknown u Hin Heq). }
    unfold login, bind, query. rewrite Hvalid, Hnone. reflexivity.
Qed.

Lemma login_submission_witness :
  resolve_identity
    (snd (login (H := sample_libraries) (credentials "bob@example.org" "hunter2")
                (world_as None)))
  = Authenticated bob
  /\ login (H := sample_libraries) (credentials "bob@example.org" "letmein")
           (world_as None)
     = (Return (redirect url_login),
        mkWorld sample_db None ["Wrong Password!"%string])
  /\ login (H := sample_libraries) (credentials "eve@example.org" "hunter2")
           (world_as None)
     = (Return (redirect url_login),
        mkWorld sample_db None ["Wrong Entry!"%string]).
Proof.
  split; [|split].
  - destruct (login_submission (H := sample_libraries)
                (credentials "bob@example.org" "hunter2") (world_as None))
      as [Hgood _]; [reflexivity|].
    destruct (Hgood bob) as [_ Hres]; [reflexivity | reflexivity |].
    apply Hres. simpl. repeat constructor; simpl; intuition lia.
  - destruct (login_submission (H := sample_libraries)
                (credentials "bob@example.org" "letmein") (world_as None))
      as [_ [Hbad _]]; [reflexivity|].
    apply (Hbad bob); reflexivity.
  - destruct (login_submission (H := sample_libraries)
                (credentials "eve@example.org" "hunter2") (world_as None))
      as [_ [_ Hnone]]; [reflexivity|].
    apply Hnone. simpl. intros u [<-|[<-|[]]]; discriminate.
Defined.

(** Following the redirect: a GET of the login route renders the login
    template and changes nothing. *)
Lemma login_get_renders `{Libraries} (form : LoginForm.t) (w : World) :
  method (LoginForm.request form) = GET ->
  login form w
  = (Return (render_template
               (login_html form (is_authenticated (resolve_identity w)))), w).
Proof.
  intros Hget. unfold login, LoginForm.validate_on_submit, is_submitted.
  rewrite Hget. reflexivity.
Qed.

(** ** Creating posts *)

(** C7. With the administrator logged in, a new-post form that validates
    and whose title a stored post already has makes the commit fail on the
    unique constraint; the view has no handler for it, so the request ends
    in an unhandled [IntegrityError] (status 500): the database is
    unchanged, but nothing is flashed and nothing redirects. *)
Theorem new_post_duplicate_title `{Libraries}
  (form : CreatePostForm.t) (today : string) (w : World)
  (u : User.t) (p : BlogPost.t) :
  resolve_identity w = Authenticated u -> User.id u = 1 ->
  CreatePostForm.validate_on_submit form = true ->
  In p (blog_posts (db w)) ->
  BlogPost.title p = CreatePostForm.title form ->
  serve_admin (new_post form today) w = (Raise IntegrityError, w)
  /\ status_code (fst (serve_admin (new_post form today) w)) = 500.
Proof.
  intros Hid Hone Hvalid Hin Htitle.
  assert (Huse : title_in_use (db w) (CreatePostForm.title form) = true).
  { apply title_in_use_spec. now exists p. }
  assert (Hrun : serve_admin (new_post form today) w = (Raise IntegrityError, w)).
  { unfold serve_admin. rewrite (admin_only_admin _ w u Hid Hone).
    unfold try_except_AttributeError. simpl undecorated.
    unfold add_new_post. rewrite Hvalid.
    unfold bind, current_user. rewrite Hid. simpl.
    unfold ret at 1. unfold insert_blog_post. rewrite Huse. reflexivity. }
  split; [exact Hrun|]. now rewrite Hrun.
Qed.

Lemma new_post_duplicate_title_witness :
  serve_admin (H := sample_libraries) (new_post (draft "Derby day") "July 04, 2023")
              (world_as (Some 1))
  = (Raise IntegrityError, world_as (Some 1)).
Proof.
  apply (new_post_duplicate_title (H := sample_libraries) (draft "Derby day")
           "July 04, 2023" (world_as (Some 1)) ada derby).
  - reflexivity.
  - reflexivity.
  - reflexivity.
  - simpl. now left.
  - reflexivity.
Defined.

(** A form that validates and whose title no stored post has appends the
    post, and the post list then shows it. *)
Lemma new_post_unique_title `{Libraries}
  (form : CreatePostForm.t) (today : string) (w : World) (u : User.t) :
  resolve_identity w = Authenticated u -> User.id u = 1 ->
  CreatePostForm.validate_on_submit form = true ->
  (forall p, In p (blog_posts (db w)) ->
             BlogPost.title p <> CreatePostForm.title form) ->
  exists created w',
    serve_admin (new_post form today) w
      = (Return (redirect url_get_all_posts), w')
    /\ blog_posts (db w') = blog_posts (db w) ++ [created]
    /\ BlogPost.title created = CreatePostForm.title form
    /\ BlogPost.date created = today
    /\ BlogPost.author_id created = Some 1
    /\ exists all_users logged_in,
         get_all_posts w'
         = (Return (render_template
                      (index_html (blog_posts (db w) ++ [created])
                                  all_users logged_in)), w').
Proof.
  intros Hid Hone Hvalid Hfresh.
  assert (Huse : title_in_use (db w) (CreatePostForm.title form) = false).
  { destruct (title_in_use (db w) (CreatePostForm.title form)) eqn:E;
      [|reflexivity].
    apply title_in_use_spec in E. destruct E as (p & Hin & Heq).
    exfalso. exact (Hfresh p Hin Heq). }
  eexists. eexists. split.
  - unfold serve_admin. rewrite (admin_only_admin _ w u Hid Hone).
    unfold try_except_AttributeError. simpl undecorated.
    unfold add_new_post. rewrite Hvalid.
    unfold bind, current_user. rewrite Hid. simpl.
    unfold ret at 1. unfold insert_blog_post. rewrite Huse, Hone. reflexivity.
  - simpl. repeat split. eexists. eexists. reflexivity.
Qed.

(** ** Editing posts *)

Lemma edit_post_redirect_inv `{Libraries}
  (post_id : nat) (submitted : CreatePostForm.t) (w w' : World)
  (target : Endpoint) :
  edit_post post_id submitted w = (Return (redirect target), w') ->
  exists post,
    BlogPost_query_get (db w) post_id = Some post
    /\ target = url_show_post post_id
    /\ w' = mkWorld
              (mkDatabase (users (db w))
                 (map (fun p => if BlogPost.id p =? post_id
                                then set_post_fields
                                       (CreatePostForm.title submitted)
                                       (CreatePostForm.subtitle submitted)
                                       (CreatePostForm.img_url submitted)
                                       (CreatePostForm.body submitted) p
                                else p) (blog_posts (db w)))
                 (comments (db w)))
              (session_user_id w) (flashes w).
Proof.
  unfold edit_post, bind, query.
  destruct (BlogPost_query_get (db w) post_id) as [post|] eqn:Hget;
    simpl; [|discriminate].
  destruct (post_get_some _ _ _ Hget) as [_ Hpid].
  unfold ret at 1.
  destruct (is_submitted (CreatePostForm.request submitted)) eqn:Hsub.
  - destruct (CreatePostForm.validate_on_submit submitted); [|discriminate].
    unfold update_blog_post. rewrite Hpid.
    destruct (existsb _ (blog_posts (db w))); [discriminate|].
    unfold ret. intros E. injection E as <- <-.
    exists post. repeat split.
  - unfold CreatePostForm.validate_on_submit. simpl. rewrite Hsub. simpl.
    discriminate.
Qed.

Lemma serve_admin_redirect_inv `{Libraries}
  (r : AdminRoute) (w w' : World) (target : Endpoint) :
  serve_admin r w = (Return (redirect target), w') ->
  undecorated r w = (Return (redirect target), w').
Proof.
  unfold serve_admin. intros Hrun.
  destruct (resolve_identity w) as [u|] eqn:Hid.
  - destruct (Nat.eq_dec (User.id u) 1) as [Hone|Hne].
    + rewrite (admin_only_admin _ w u Hid Hone) in Hrun.
      unfold try_except_AttributeError in Hrun.
      destruct (undecorated r w) as [[resp|[]] w0]; try exact Hrun.
      discriminate Hrun.
    + rewrite (admin_only_other _ w u Hid Hne) in Hrun. discriminate Hrun.
  - rewrite (admin_only_anonymous _ w Hid) in Hrun. discriminate Hrun.
Qed.

(** C8. Whenever an edit-post request ends in the redirect of the success
    path, the redirect goes to the page of the edited post; the users, the
    comments, the session and the flashed messages are unchanged; the post
    table keeps its length and, row by row, the id, the date and the author
    of every post; every post with another id is unchanged; and the post
    with the requested id carries the submitted title, subtitle, image URL
    and body. *)
Theorem edit_post_frame `{Libraries}
  (post_id : nat) (submitted : CreatePostForm.t) (w w' : World)
  (target : Endpoint) :
  serve_admin (edit_post_route post_id submitted) w
    = (Return (redirect target), w') ->
  target = url_show_post post_id
  /\ users (db w') = users (db w)
  /\ comments (db w') = comments (db w)
  /\ session_user_id w' = session_user_id w
  /\ flashes w' = flashes w
  /\ length (blog_posts (db w')) = length (blog_posts (db w))
  /\ (exists post, BlogPost_query_get (db w) post_id = Some post)
  /\ forall i p,
       nth_error (blog_posts (db w)) i = Some p ->
       exists p',
         nth_error (blog_posts (db w')) i = Some p'
         /\ BlogPost.id p' = BlogPost.id p
         /\ BlogPost.date p' = BlogPost.date p
         /\ BlogPost.author_id p' = BlogPost.author_id p
         /\ (BlogPost.id p <> post_id -> p' = p)
         /\ (BlogPost.id p = post_id ->
             BlogPost.title p' = CreatePostForm.title submitted
             /\ BlogPost.subtitle p' = CreatePostForm.subtitle submitted
             /\ BlogPost.img_url p' = CreatePostForm.img_url submitted
             /\ BlogPost.body p' = CreatePostForm.body submitted).
Proof.
  intros Hrun. apply serve_admin_redirect_inv in Hrun. simpl in Hrun.
  apply edit_post_redirect_inv in Hrun.
  destruct Hrun as (post & Hget & -> & ->). simpl.
  repeat split; try reflexivity.
  - apply length_map.
  - now exists post.
  - intros i p Hnth.
    rewrite nth_error_map, Hnth. simpl.
    destruct (Nat.eqb_spec (BlogPost.id p) post_id) as [E|E].
    + eexists. split; [reflexivity|]. simpl. repeat split; tauto.
    + exists p. repeat split; tauto.
Qed.

Lemma edit_post_frame_witness :
  serve_admin (H := sample_libraries) (edit_post_route 2 (draft "Transfer update"))
              (world_as (Some 1))
  = (Return (redirect (url_show_post 2)),
     mkWorld
       (mkDatabase [ada; bob]
          [derby;
           BlogPost.mk 2 "Transfer update" "Subtitle" "June 12, 2023"
                       "<p>Text</p>" "https://example.org/new.jpg" (Some 1)]
          [cheer])
       (Some 1) [])
  /\ users (db (snd (serve_admin (H := sample_libraries)
                       (edit_post_route 2 (draft "Transfer update"))
                       (world_as (Some 1)))))
     = [ada; bob].
Proof.
  split; [reflexivity|].
  destruct (edit_post_frame (H := sample_libraries) 2 (draft "Transfer update")
              (world_as (Some 1))
              (snd (serve_admin (H := sample_libraries)
                      (edit_post_route 2 (draft "Transfer update"))
                      (world_as (Some 1))))
              (url_show_post 2))
    as (_ & Husers & _); [reflexivity|].
  exact Husers.
Defined.

(** ** Comments and the posts they belong to *)

Lemma post_resolves_iff (d : Database) (b : nat) :
  (exists post, BlogPost_query_get d b = Some post)
  <-> In b (map BlogPost.id (blog_posts d)).
Proof.
  unfold BlogPost_query_get. split.
  - intros (post & Hf). apply find_some in Hf. destruct Hf as [Hin Heq].
    apply Nat.eqb_eq in Heq. subst b. now apply in_map.
  - intros Hin. apply in_map_iff in Hin. destruct Hin as (q & Hq & Hin).
    destruct (find (fun p => BlogPost.id p =? b) (blog_posts d)) as [post|] eqn:E.
    + now exists post.
    + exfalso. apply (find_none _ _ E) in Hin.
      rewrite Hq, Nat.eqb_refl in Hin. discriminate.
Qed.

(** The invariant only reads the comment rows and the ids of the posts. *)
Lemma references_transfer (d d' : Database) :
  comments d' = comments d ->
  (forall b, In b (map BlogPost.id (blog_posts d)) ->
             In b (map BlogPost.id (blog_posts d'))) ->
  comments_reference_posts_or_null d -> comments_reference_posts_or_null d'.
Proof.
  intros Hc Hids Hinv c b Hin Hb. rewrite Hc in Hin.
  apply post_resolves_iff, Hids, post_resolves_iff. exact (Hinv c b Hin Hb).
Qed.

Lemma references_same_tables (d d' : Database) :
  blog_posts d' = blog_posts d -> comments d' = comments d ->
  comments_reference_posts_or_null d -> comments_reference_posts_or_null d'.
Proof.
  intros Hp Hc. apply references_transfer; [exact Hc|].
  intros b. now rewrite Hp.
Qed.

(** Case analysis on the innermost scrutinee a view is stuck on. *)
Ltac split_scrutinee :=
  match goal with
  | |- context [match ?x with _ => _ end] =>
      lazymatch x with
      | context [match _ with _ => _ end] => fail
      | _ => destruct x eqn:?
      end
  | |- context [if ?b then _ else _] =>
      lazymatch b with
      | context [match _ with _ => _ end] => fail
      | _ => destruct b eqn:?
      end
  end.

Ltac step_view :=
  unfold bind, query, current_user, logged_in_now, ret, raise, flash,
    login_user, logout_user, attr_id, abort,
    insert_user, insert_comment, insert_blog_post; simpl;
  repeat (split_scrutinee; simpl).

Lemma register_keeps_tables `{Libraries}
  (form : RegisterForm.t) (salt : string) (w : World) :
  blog_posts (db (snd (register form salt w))) = blog_posts (db w)
  /\ comments (db (snd (register form salt w))) = comments (db w).
Proof. unfold register. step_view; split; reflexivity. Qed.

Lemma login_keeps_db `{Libraries} (form : LoginForm.t) (w : World) :
  db (snd (login form w)) = db w.
Proof. unfold login. step_view; reflexivity. Qed.

Lemma show_post_effect `{Libraries}
  (post_id : nat) (comment_form : CommentForm.t) (w : World) :
  db (snd (show_post post_id comment_form w)) = db w
  \/ (CommentForm.validate_on_submit comment_form = true
      /\ is_authenticated (resolve_identity w) = true
      /\ exists c,
           Comment.blog_id c = Some post_id
           /\ db (snd (show_post post_id comment_form w))
              = mkDatabase (users (db w)) (blog_posts (db w))
                           (comments (db w) ++ [c])).
Proof.
  destruct (CommentForm.validate_on_submit comment_form) eqn:Hv.
  - destruct (resolve_identity w) as [u|] eqn:Hid.
    + right. repeat split.
      destruct (comment_insert_run post_id comment_form w u Hv Hid)
        as (c & Hrun & Hblog).
      exists c. split; [exact Hblog|]. now rewrite Hrun.
    + left. unfold show_post, bind, query, current_user.
      rewrite Hv, Hid. reflexivity.
  - left. unfold show_post, bind, query, logged_in_now, current_user.
    rewrite Hv. reflexivity.
Qed.

Lemma add_new_post_effect `{Libraries}
  (form : CreatePostForm.t) (today : string) (w : World) :
  comments (db (snd (add_new_post form today w))) = comments (db w)
  /\ forall b, In b (map BlogPost.id (blog_posts (db w))) ->
       In b (map BlogPost.id (blog_posts (db (snd (add_new_post form today w))))).
Proof.
  unfold add_new_post. step_view; split; try reflexivity; try tauto.
  intros b Hin. rewrite map_app. apply in_or_app. now left.
Qed.

Lemma edit_post_effect `{Libraries}
  (post_id : nat) (submitted : CreatePostForm.t) (w : World) :
  comments (db (snd (edit_post post_id submitted w))) = comments (db w)
  /\ map BlogPost.id (blog_posts (db (snd (edit_post post_id submitted w))))
     = map BlogPost.id (blog_posts (db w)).
Proof.
  unfold edit_post, attrs_of_post, update_blog_post.
  step_view; split; try reflexivity.
  all: rewrite map_map; apply map_ext; intros p;
    destruct (BlogPost.id p =? BlogPost.id _); reflexivity.
Qed.

Lemma detach_comment_blog (pid : nat) (c : Comment.t) (b : nat) :
  Comment.blog_id (detach_comment pid c) = Some b ->
  Comment.blog_id c = Some b /\ b <> pid.
Proof.
  unfold detach_comment. destruct (Comment.blog_id c) as [b'|] eqn:E.
  - destruct (Nat.eqb_spec b' pid) as [Heq|Hne]; simpl.
    + discriminate.
    + rewrite E. intros Hb. injection Hb as <-. now split.
  - rewrite E. discriminate.
Qed.

Lemma delete_post_keeps_references `{Libraries} (post_id : nat) (w : World) :
  comments_reference_posts_or_null (db w) ->
  comments_reference_posts_or_null (db (snd (delete_post post_id w))).
Proof.
  intros Hinv. unfold delete_post, delete_blog_post. unfold bind at 1, query. simpl.
  destruct (BlogPost_query_get (db w) post_id) as [post|] eqn:Hget; simpl;
    [|exact Hinv].
  intros c b Hin Hb. simpl in Hin.
  apply in_map_iff in Hin. destruct Hin as (c0 & <- & Hin0).
  apply detach_comment_blog in Hb. destruct Hb as [Hb Hne].
  apply post_resolves_iff. simpl.
  assert (Hold := proj1 (post_resolves_iff _ _) (Hinv c0 b Hin0 Hb)).
  apply in_map_iff in Hold. destruct Hold as (q & Hq & Hqin).
  apply in_map_iff. exists q. split; [exact Hq|].
  apply filter_In. split; [exact Hqin|].
  rewrite Hq. now apply negb_true_iff, Nat.eqb_neq.
Qed.

Lemma serve_admin_world `{Libraries} (r : AdminRoute) (w : World) :
  snd (serve_admin r w) = w \/ snd (serve_admin r w) = snd (undecorated r w).
Proof.
  unfold serve_admin.
  destruct (resolve_identity w) as [u|] eqn:Hid.
  - destruct (Nat.eq_dec (User.id u) 1) as [Hone|Hne].
    + right. rewrite (admin_only_admin _ w u Hid Hone).
      unfold try_except_AttributeError.
      destruct (undecorated r w) as [[resp|[]] w0]; reflexivity.
    + left. now rewrite (admin_only_other _ w u Hid Hne).
  - left. now rewrite (admin_only_anonymous _ w Hid).
Qed.

Lemma undecorated_keeps_references `{Libraries} (r : AdminRoute) (w : World) :
  comments_reference_posts_or_null (db w) ->
  comments_reference_posts_or_null (db (snd (undecorated r w))).
Proof.
  destruct r as [form today|post_id submitted|post_id]; simpl.
  - destruct (add_new_post_effect form today w) as [Hc Hids].
    now apply references_transfer.
  - destruct (edit_post_effect post_id submitted w) as [Hc Hids].
    apply references_transfer; [exact Hc|]. intros b. now rewrite Hids.
  - apply delete_post_keeps_references.
Qed.

(** One request other than a comment on a missing post keeps the
    references. *)
Lemma run_keeps_references `{Libraries} (op : Operation) (w : World) :
  comments_on_missing_post op w = false ->
  comments_reference_posts_or_null (db w) ->
  comments_reference_posts_or_null (db (snd (run op w))).
Proof.
  intros Hallowed Hinv.
  destruct op as [|form salt|form| |post_id comment_form| | |r]; simpl.
  - exact Hinv.
  - destruct (register_keeps_tables form salt w) as [Hp Hc].
    now apply (references_same_tables (db w)).
  - now rewrite login_keeps_db.
  - exact Hinv.
  - destruct (show_post_effect post_id comment_form w)
      as [Hsame|(Hv & Hauth & c & Hblog & Hdb)].
    + now rewrite Hsame.
    + rewrite Hdb. simpl in Hallowed. rewrite Hv, Hauth in Hallowed.
      simpl in Hallowed.
      destruct (BlogPost_query_get (db w) post_id) as [post|] eqn:Hget;
        [|discriminate].
      intros c' b Hin Hb. simpl in Hin. apply in_app_or in Hin.
      apply post_resolves_iff. simpl. apply post_resolves_iff.
      destruct Hin as [Hin|[<-|[]]].
      * exact (Hinv c' b Hin Hb).
      * rewrite Hblog in Hb. injection Hb as <-. now exists post.
  - exact Hinv.
  - exact Hinv.
  - destruct (serve_admin_world r w) as [-> | ->]; [exact Hinv|].
    now apply undecorated_keeps_references.
Qed.

(** Deleting a post keeps every comment row and leaves none that refers
    to the deleted id. *)
Lemma delete_post_detaches_comments `{Libraries}
  (post_id : nat) (w : World) (post : BlogPost.t) :
  BlogPost_query_get (db w) post_id = Some post ->
  length (comments (db (snd (delete_post post_id w))))
  = length (comments (db w))
  /\ forall c, In c (comments (db (snd (delete_post post_id w)))) ->
               Comment.blog_id c <> Some post_id.
Proof.
  intros Hget. destruct (post_get_some _ _ _ Hget) as [_ Hpid].
  assert (Hrun : comments (db (snd (delete_post post_id w)))
                 = map (detach_comment post_id) (comments (db w))).
  { unfold delete_post, delete_blog_post, bind, query.
    rewrite Hget, Hpid. reflexivity. }
  rewrite Hrun. split; [apply length_map|].
  intros c Hin Hb. apply in_map_iff in Hin. destruct Hin as (c0 & <- & _).
  apply detach_comment_blog in Hb. now destruct Hb.
Qed.

(** C4, as stated, fails: starting from the empty database, a comment
    sent to a post id that resolves to no post is stored with that id, and
    deleting a post that has a comment leaves the comment with a NULL
    [blog_id]; in both final states a comment references no stored post. *)
Lemma comment_references_broken :
  run_all (H := sample_libraries) stray_comment_run empty_world
  = mkWorld (mkDatabase [ada] []
               [Comment.mk 1 "<p>First!</p>" (Some 1) (Some 7)])
            (Some 1) []
  /\ ~ comments_reference_posts
         (db (run_all (H := sample_libraries) stray_comment_run empty_world))
  /\ comments (db (run_all (H := sample_libraries) delete_commented_run
                           empty_world))
     = [Comment.mk 1 "<p>Great win</p>" (Some 1) None]
  /\ blog_posts (db (run_all (H := sample_libraries) delete_commented_run
                             empty_world)) = []
  /\ ~ comments_reference_posts
         (db (run_all (H := sample_libraries) delete_commented_run empty_world)).
Proof.
  split; [reflexivity|]. split; [|split; [reflexivity|split; [reflexivity|]]].
  - intros Hinv.
    destruct (Hinv (Comment.mk 1 "<p>First!</p>" (Some 1) (Some 7)))
      as (b & post & _ & Hpost); [simpl; now left|].
    destruct b; discriminate Hpost.
  - intros Hinv.
    destruct (Hinv (Comment.mk 1 "<p>Great win</p>" (Some 1) None))
      as (b & post & Hb & _); [simpl; now left|].
    discriminate Hb.
Qed.

(** C4, amended. In every state reached from a database whose comments
    each have a NULL [blog_id] or reference a stored post, by requests
    other than a validated comment of a logged-in user on a post id that
    resolves to no post, every comment still has a NULL [blog_id] or
    references a stored post; and deleting a stored post there keeps every
    comment row and leaves none that refers to the deleted id. *)
Theorem reachable_comments_reference_posts `{Libraries} (start w : World) :
  comments_reference_posts_or_null (db start) ->
  Reachable start w ->
  comments_reference_posts_or_null (db w)
  /\ forall post_id post,
       BlogPost_query_get (db w) post_id = Some post ->
       length (comments (db (snd (delete_post post_id w))))
       = length (comments (db w))
       /\ forall c, In c (comments (db (snd (delete_post post_id w)))) ->
                    Comment.blog_id c <> Some post_id.
Proof.
  intros Hstart Hreach. split.
  - induction Hreach as [|w op Hreach IH Hallowed]; [exact Hstart|].
    now apply run_keeps_references.
  - intros post_id post. apply delete_post_detaches_comments.
Qed.

Lemma reachable_comments_reference_posts_witness :
  comments_reference_posts_or_null
    (db (run_all (H := sample_libraries) delete_commented_run empty_world)).
Proof.
  apply (reachable_comments_reference_posts (H := sample_libraries) empty_world).
  - intros c b [].
  - cbv [run_all delete_commented_run fold_left].
    repeat (apply reach_step; [|reflexivity]).
    apply reach_start.
Defined.

(** The request left out above: it stores a comment that references no
    stored post. *)
Lemma comment_on_missing_post `{Libraries}
  (post_id : nat) (comment_form : CommentForm.t) (w : World) (u : User.t) :
  CommentForm.validate_on_submit comment_form = true ->
  resolve_identity w = Authenticated u ->
  BlogPost_query_get (db w) post_id = None ->
  exists c,
    In c (comments (db (snd (show_post post_id comment_form w))))
    /\ Comment.blog_id c = Some post_id
    /\ BlogPost_query_get (db (snd (show_post post_id comment_form w))) post_id
       = None.
Proof.
  intros Hvalid Hid Hget.
  destruct (comment_insert_run post_id comment_form w u Hvalid Hid)
    as (c & Hrun & Hblog).
  exists c. rewrite Hrun. simpl.
  repeat split; try assumption.
  apply in_or_app. right. now left.
Qed.

(** ** What each view returns, branch by branch *)

Lemma identity_stored (w : World) (u : User.t) :
  resolve_identity w = Authenticated u ->
  In u (users (db w)) /\ session_user_id w = Some (User.id u).
Proof.
  unfold resolve_identity, load_user, User_query_get.
  destruct (session_user_id w) as [i|]; [|discriminate].
  destruct (find _ (users (db w))) as [v|] eqn:E; [|discriminate].
  intros Hv. injection Hv as ->. apply find_some in E. destruct E as [Hin Heq].
  apply Nat.eqb_eq in Heq. now subst i.
Qed.

Lemma register_run `{Libraries}
  (form : RegisterForm.t) (salt : string) (w : World) :
  (RegisterForm.validate_on_submit form = false
   /\ register form salt w
      = (Return (render_template
                   (register_html form (is_authenticated (resolve_identity w)))),
         w))
  \/ (RegisterForm.validate_on_submit form = true
      /\ email_in_use (db w) (RegisterForm.email form) = true
      /\ register form salt w
         = (Return (redirect url_login),
            mkWorld (db w) (session_user_id w)
                    (flashes w ++ ["That email already exist in db!"%string])))
  \/ (RegisterForm.validate_on_submit form = true
      /\ email_in_use (db w) (RegisterForm.email form) = false
      /\ register form salt w
         = (Return (redirect url_get_all_posts),
            let u := User.mk (next_id (map User.id (users (db w))))
                             (RegisterForm.name form) (RegisterForm.email form)
                             (generate_password_hash (RegisterForm.password form)
                                                     "pbkdf2:sha256" 8 salt) in
            mkWorld (mkDatabase (users (db w) ++ [u]) (blog_posts (db w))
                                (comments (db w)))
                    (Some (User.id u)) (flashes w))).
Proof.
  destruct (RegisterForm.validate_on_submit form) eqn:Hv.
  - right.
    destruct (email_in_use (db w) (RegisterForm.email form)) eqn:Huse.
    + left. repeat split.
      unfold register. rewrite Hv. unfold bind, query.
      destruct (User_query_filter_by_email_first (db w) (RegisterForm.email form))
        eqn:E; [reflexivity|].
      apply filter_by_email_none_iff in E. congruence.
    + right. repeat split.
      unfold register. rewrite Hv. unfold bind, query.
      rewrite (proj2 (filter_by_email_none_iff _ _) Huse).
      unfold insert_user. rewrite Huse. reflexivity.
  - left. split; [reflexivity|].
    unfold register. rewrite Hv. reflexivity.
Qed.

Lemma login_run `{Libraries} (form : LoginForm.t) (w : World) :
  (LoginForm.validate_on_submit form = false
   /\ login form w
      = (Return (render_template
                   (login_html form (is_authenticated (resolve_identity w)))), w))
  \/ (exists msg,
        login form w
        = (Return (redirect url_login),
           mkWorld (db w) (session_user_id w) (flashes w ++ [msg])))
  \/ (exists user,
        In user (users (db w))
        /\ User.email user = LoginForm.email form
        /\ check_password_hash (User.password user) (LoginForm.password form) = true
        /\ login form w
           = (Return (redirect url_get_all_posts),
              mkWorld (db w) (Some (User.id user)) (flashes w))).
Proof.
  destruct (LoginForm.validate_on_submit form) eqn:Hv.
  - right.
    destruct (User_query_filter_by_email_first (db w) (LoginForm.email form))
      as [user|] eqn:Hfound.
    + destruct (check_password_hash (User.password user) (LoginForm.password form))
        eqn:Hcheck.
      * right. exists user.
        destruct (filter_by_email_some _ _ _ Hfound) as [Hin Hmail].
        repeat split; try assumption.
        unfold login, bind, query. rewrite Hv, Hfound, Hcheck. reflexivity.
      * left. exists "Wrong Password!"%string.
        unfold login, bind, query. rewrite Hv, Hfound, Hcheck. reflexivity.
    + left. exists "Wrong Entry!"%string.
      unfold login, bind, query. rewrite Hv, Hfound. reflexivity.
  - left. split; [reflexivity|].
    unfold login. rewrite Hv. reflexivity.
Qed.

Lemma show_post_run `{Libraries}
  (post_id : nat) (comment_form : CommentForm.t) (w : World) :
  (CommentForm.validate_on_submit comment_form = false
   /\ show_post post_id comment_form w
      = (Return (render_template
                   (post_html (BlogPost_query_get (db w) post_id) (users (db w))
                              comment_form
                              (is_authenticated (resolve_identity w))
                              (comments_of post_id (comments (db w))))), w))
  \/ (CommentForm.validate_on_submit comment_form = true
      /\ resolve_identity w = Anonymous
      /\ show_post post_id comment_form w
         = (Return (redirect url_login),
            mkWorld (db w) (session_user_id w)
                    (flashes w ++ ["Need to log in to comment!"%string])))
  \/ (exists u,
        CommentForm.validate_on_submit comment_form = true
        /\ resolve_identity w = Authenticated u
        /\ show_post post_id comment_form w
           = (Return (redirect (url_show_post post_id)),
              mkWorld (mkDatabase (users (db w)) (blog_posts (db w))
                         (comments (db w) ++ [new_comment w post_id comment_form u]))
                      (session_user_id w) (flashes w))).
Proof.
  destruct (CommentForm.validate_on_submit comment_form) eqn:Hv.
  - right. destruct (resolve_identity w) as [u|] eqn:Hid.
    + right. exists u. repeat split.
      unfold show_post, bind, query, current_user. rewrite Hv, Hid. reflexivity.
    + left. repeat split.
      unfold show_post, bind, query, current_user. rewrite Hv, Hid. reflexivity.
  - left. split; [reflexivity|].
    unfold show_post, bind, query, logged_in_now, current_user.
    rewrite Hv. reflexivity.
Qed.

Lemma add_new_post_run `{Libraries}
  (form : CreatePostForm.t) (today : string) (w : World) (u : User.t) :
  resolve_identity w = Authenticated u ->
  (CreatePostForm.validate_on_submit form = false
   /\ add_new_post form today w
      = (Return (render_template (make_post_html form true)), w))
  \/ (CreatePostForm.validate_on_submit form = true
      /\ title_in_use (db w) (CreatePostForm.title form) = true
      /\ add_new_post form today w = (Raise IntegrityError, w))
  \/ (CreatePostForm.validate_on_submit form = true
      /\ title_in_use (db w) (CreatePostForm.title form) = false
      /\ add_new_post form today w
         = (Return (redirect url_get_all_posts),
            mkWorld (mkDatabase (users (db w))
                       (blog_posts (db w)
                        ++ [new_blog_post w form today (User.id u)])
                       (comments (db w)))
                    (session_user_id w) (flashes w))).
Proof.
  intros Hid.
  destruct (CreatePostForm.validate_on_submit form) eqn:Hv.
  - right.
    destruct (title_in_use (db w) (CreatePostForm.title form)) eqn:Huse.
    + left. repeat split.
      unfold add_new_post. rewrite Hv. unfold bind, current_user.
      rewrite Hid. simpl. unfold ret at 1.
      unfold insert_blog_post. rewrite Huse. reflexivity.
    + right. repeat split.
      unfold add_new_post. rewrite Hv. unfold bind, current_user.
      rewrite Hid. simpl. unfold ret at 1.
      unfold insert_blog_post. rewrite Huse. reflexivity.
  - left. split; [reflexivity|].
    unfold add_new_post. rewrite Hv.
    unfold bind, logged_in_now, bind, current_user. rewrite Hid. reflexivity.
Qed.

Lemma edit_post_run `{Libraries}
  (post_id : nat) (submitted : CreatePostForm.t) (w : World) :
  (BlogPost_query_get (db w) post_id = None
   /\ edit_post post_id submitted w = (Raise AttributeError, w))
  \/ (exists post page,
        BlogPost_query_get (db w) post_id = Some post
        /\ edit_post post_id submitted w = (Return (render_template page), w))
  \/ (exists post,
        BlogPost_query_get (db w) post_id = Some post
        /\ CreatePostForm.validate_on_submit submitted = true
        /\ existsb (fun p => negb (BlogPost.id p =? post_id)
                             && String.eqb (BlogPost.title p)
                                           (CreatePostForm.title submitted))
                   (blog_posts (db w)) = true
        /\ edit_post post_id submitted w = (Raise IntegrityError, w))
  \/ (exists post,
        BlogPost_query_get (db w) post_id = Some post
        /\ CreatePostForm.validate_on_submit submitted = true
        /\ existsb (fun p => negb (BlogPost.id p =? post_id)
                             && String.eqb (BlogPost.title p)
                                           (CreatePostForm.title submitted))
                   (blog_posts (db w)) = false
        /\ edit_post post_id submitted w
           = (Return (redirect (url_show_post post_id)),
              mkWorld
                (mkDatabase (users (db w))
                   (map (fun p => if BlogPost.id p =? post_id
                                  then set_post_fields
                                         (CreatePostForm.title submitted)
                                         (CreatePostForm.subtitle submitted)
                                         (CreatePostForm.img_url submitted)
                                         (CreatePostForm.body submitted) p
                                  else p) (blog_posts (db w)))
                   (comments (db w)))
                (session_user_id w) (flashes w))).
Proof.
  destruct (BlogPost_query_get (db w) post_id) as [post|] eqn:Hget.
  - right. destruct (post_get_some _ _ _ Hget) as [_ Hpid].
    destruct (is_submitted (CreatePostForm.request submitted)) eqn:Hsub.
    + destruct (CreatePostForm.validate_on_submit submitted) eqn:Hv.
      * right.
        destruct (existsb (fun p => negb (BlogPost.id p =? post_id)
                                    && String.eqb (BlogPost.title p)
                                         (CreatePostForm.title submitted))
                          (blog_posts (db w))) eqn:Hclash.
        -- left. exists post. repeat split.
           unfold edit_post, bind, query. rewrite Hget. simpl.
           unfold ret at 1. rewrite Hsub, Hv.
           unfold update_blog_post. rewrite Hpid, Hclash. reflexivity.
        -- right. exists post. repeat split.
           unfold edit_post, bind, query. rewrite Hget. simpl.
           unfold ret at 1. rewrite Hsub, Hv.
           unfold update_blog_post. rewrite Hpid, Hclash. reflexivity.
      * left. eexists post, _. split; [reflexivity|].
        unfold edit_post, bind, query. rewrite Hget. simpl.
        unfold ret at 1. rewrite Hsub, Hv. reflexivity.
    + left. eexists post, _. split; [reflexivity|].
      unfold edit_post, bind, query. rewrite Hget. simpl.
      unfold ret at 1. rewrite Hsub.
      unfold CreatePostForm.validate_on_submit. simpl. rewrite Hsub. reflexivity.
  - left. split; [reflexivity|].
    unfold edit_post, bind, query. rewrite Hget. reflexivity.
Qed.

Lemma delete_post_run `{Libraries} (post_id : nat) (w : World) :
  (BlogPost_query_get (db w) post_id = None
   /\ delete_post post_id w = (Raise UnmappedInstanceError, w))
  \/ (exists post,
        BlogPost_query_get (db w) post_id = Some post
        /\ delete_post post_id w
           = (Return (redirect url_get_all_posts),
              mkWorld
                (mkDatabase (users (db w))
                   (filter (fun q => negb (BlogPost.id q =? post_id))
                           (blog_posts (db w)))
                   (map (detach_comment post_id) (comments (db w))))
                (session_user_id w) (flashes w))).
Proof.
  destruct (BlogPost_query_get (db w) post_id) as [post|] eqn:Hget.
  - right. exists post. split; [reflexivity|].
    destruct (post_get_some _ _ _ Hget) as [_ Hpid].
    unfold delete_post, delete_blog_post, bind, query.
    rewrite Hget, Hpid. reflexivity.
  - left. split; [reflexivity|].
    unfold delete_post, delete_blog_post, bind, query. rewrite Hget. reflexivity.
Qed.

(** What the decorated view is on each identity. *)
Lemma serve_admin_run `{Libraries} (r : AdminRoute) (w : World) :
  (resolve_identity w = Anonymous
   /\ serve_admin r w = (Return need_to_log_in, w))
  \/ ((exists u, resolve_identity w = Authenticated u /\ User.id u <> 1)
      /\ serve_admin r w = (Raise (HTTPException 403), w))
  \/ (is_admin w
      /\ serve_admin r w
         = match undecorated r w with
           | (Raise AttributeError, w') => (Return need_to_log_in, w')
           | ran => ran
           end).
Proof.
  unfold serve_admin.
  destruct (resolve_identity w) as [u|] eqn:Hid.
  - right. destruct (Nat.eq_dec (User.id u) 1) as [Hone|Hne].
    + right. split; [now exists u|].
      now rewrite (admin_only_admin _ w u Hid Hone).
    + left. split; [now exists u|].
      now rewrite (admin_only_other _ w u Hid Hne).
  - left. split; [reflexivity|]. now rewrite (admin_only_anonymous _ w Hid).
Qed.

(** A request leaves the database as it is or makes exactly one write. *)
Lemma run_db_effect `{Libraries} (op : Operation) (w : World) :
  db (snd (run op w)) = db w \/ Write w op (db (snd (run op w))).
Proof.
  destruct op as [|form salt|form| |post_id comment_form| | |r]; simpl;
    try (left; reflexivity).
  - destruct (register_run form salt w)
      as [[_ ->]|[(_ & _ & ->)|(_ & Huse & ->)]];
      [left; reflexivity | left; reflexivity |].
    right. simpl. now apply write_user.
  - left. apply login_keeps_db.
  - destruct (show_post_run post_id comment_form w)
      as [[_ ->]|[(_ & _ & ->)|(u & _ & Hid & ->)]];
      [left; reflexivity | left; reflexivity |].
    right. simpl. now apply write_comment.
  - destruct (serve_admin_run r w)
      as [[_ ->]|[[_ ->]|[Hadmin ->]]];
      [left; reflexivity | left; reflexivity |].
    destruct Hadmin as (u & Hid & Hone).
    assert (Hadmin : is_admin w) by now exists u.
    destruct r as [form today|post_id submitted|post_id]; simpl.
    + destruct (add_new_post_run form today w u Hid)
        as [[_ ->]|[(_ & _ & ->)|(_ & Huse & ->)]];
        [left; reflexivity | left; reflexivity |].
      right. simpl. rewrite Hone. now apply write_post.
    + destruct (edit_post_run post_id submitted w)
        as [[_ ->]|[(post & page & _ & ->)|[(post & _ & _ & _ & ->)
                                           |(post & Hget & _ & Hclash & ->)]]];
        [left; reflexivity | left; reflexivity | left; reflexivity |].
      right. simpl. now apply (write_edit w post_id submitted post).
    + destruct (delete_post_run post_id w) as [[_ ->]|(post & Hget & ->)];
        [left; reflexivity|].
      right. simpl. now apply (write_delete w post_id post).
Qed.

(** ** Who can change what *)

(** Case analysis on the write a request made, with the database after it
    replaced by the rows written. *)
Ltac invert_write Hw :=
  inversion Hw; subst; cbn [run] in *;
  match goal with
  | E : mkDatabase _ _ _ = db _ |- _ => rewrite <- E in *; clear E
  end; cbn [users blog_posts comments] in *.

(** X1. A request that carries no submitted form, other than a logout or a
    delete, changes neither the database nor the session nor the flashed
    messages, and is answered with status 200 or, on an admin route
    requested by a logged-in user other than the administrator, 403. *)
Theorem unsubmitted_requests_change_nothing `{Libraries}
  (op : Operation) (w : World) :
  unsubmitted op = true ->
  snd (run op w) = w
  /\ (status_code (fst (run op w)) = 200
      \/ (status_code (fst (run op w)) = 403
          /\ exists r u, op = on_admin r
                         /\ resolve_identity w = Authenticated u
                         /\ User.id u <> 1)).
Proof.
  intros Hun.
  destruct op as [|form salt|form| |post_id comment_form| | |r]; simpl in *;
    try discriminate; try (split; [reflexivity|left; reflexivity]).
  - apply negb_true_iff in Hun.
    destruct (register_run form salt w)
      as [[_ ->]|[(Hv & _)|(Hv & _)]];
      [split; [reflexivity|left; reflexivity] | |];
      unfold RegisterForm.validate_on_submit in Hv; rewrite Hun in Hv;
      discriminate.
  - apply negb_true_iff in Hun.
    assert (Hv : LoginForm.validate_on_submit form = false)
      by (unfold LoginForm.validate_on_submit; now rewrite Hun).
    unfold login. rewrite Hv. split; [reflexivity|left; reflexivity].
  - apply negb_true_iff in Hun.
    destruct (show_post_run post_id comment_form w)
      as [[_ ->]|[(Hv & _)|(u & Hv & _)]];
      [split; [reflexivity|left; reflexivity] | |];
      unfold CommentForm.validate_on_submit in Hv; rewrite Hun in Hv;
      discriminate.
  - destruct (serve_admin_run r w)
      as [[_ ->]|[[(u & Hid & Hne) ->]|[(u & Hid & Hone) ->]]].
    + split; [reflexivity|left; reflexivity].
    + split; [reflexivity|]. right. split; [reflexivity|]. now exists r, u.
    + destruct r as [form today|post_id submitted|post_id]; simpl in *;
        try discriminate; apply negb_true_iff in Hun.
      * destruct (add_new_post_run form today w u Hid)
          as [[_ ->]|[(Hv & _)|(Hv & _)]];
          [split; [reflexivity|left; reflexivity] | |];
          unfold CreatePostForm.validate_on_submit in Hv; rewrite Hun in Hv;
          discriminate.
      * destruct (edit_post_run post_id submitted w)
          as [[_ ->]|[(post & page & _ & ->)|[(post & _ & Hv & _)
                                             |(post & _ & Hv & _)]]];
          [split; [reflexivity|left; reflexivity]
          |split; [reflexivity|left; reflexivity] | |];
          unfold CreatePostForm.validate_on_submit in Hv; rewrite Hun in Hv;
          discriminate.
Qed.

Lemma unsubmitted_requests_change_nothing_witness :
  snd (run (H := sample_libraries)
           (on_admin (edit_post_route 2
              (CreatePostForm.mk (mkRequest GET true) "" "" "" "")))
           (world_as (Some 1)))
  = world_as (Some 1).
Proof.
  apply (unsubmitted_requests_change_nothing (H := sample_libraries)).
  reflexivity.
Defined.

(** X2. The users table is append-only: a request leaves it as it is,
    unless it is a registration, which appends one row at the end. *)
Theorem users_append_only `{Libraries} (op : Operation) (w : World) :
  users (db (snd (run op w))) = users (db w)
  \/ exists form salt u,
       op = on_register form salt
       /\ users (db (snd (run op w))) = users (db w) ++ [u].
Proof.
  destruct (run_db_effect op w) as [->|Hw]; [now left|].
  invert_write Hw; try (left; reflexivity).
  right. eexists _, _, _. split; reflexivity.
Qed.

(** X3. Whenever a request changes the posts table, it is one of the three
    admin routes and the requester is the user with id 1. *)
Theorem only_admin_changes_posts `{Libraries} (op : Operation) (w : World) :
  blog_posts (db (snd (run op w))) <> blog_posts (db w) ->
  is_admin w /\ exists r, op = on_admin r.
Proof.
  intros Hchanged.
  destruct (run_db_effect op w) as [Hsame|Hw].
  - exfalso. apply Hchanged. now rewrite Hsame.
  - invert_write Hw; try (exfalso; apply Hchanged; reflexivity);
      (split; [assumption|now eexists]).
Qed.

Lemma only_admin_changes_posts_witness :
  is_admin (world_as (Some 1)).
Proof.
  apply (only_admin_changes_posts (H := sample_libraries)
           (on_admin (delete_route 2)) (world_as (Some 1))).
  simpl. discriminate.
Defined.

(** X4. For an anonymous requester the only request that changes the
    database is a registration. *)
Theorem anonymous_writes_only_by_registering `{Libraries}
  (op : Operation) (w : World) :
  resolve_identity w = Anonymous ->
  db (snd (run op w)) = db w \/ exists form salt, op = on_register form salt.
Proof.
  intros Hanon.
  destruct (run_db_effect op w) as [Hsame|Hw]; [now left|].
  inversion Hw; subst;
    try match goal with
        | Hadmin : is_admin w |- _ => destruct Hadmin as (u0 & Hid0 & _)
        end;
    try congruence.
  right. now eexists _, _.
Qed.

Lemma anonymous_writes_only_by_registering_witness :
  db (snd (run (H := sample_libraries) (on_post 1 (remark "<p>Hello</p>"))
               (world_as None)))
  = sample_db.
Proof.
  destruct (anonymous_writes_only_by_registering (H := sample_libraries)
              (on_post 1 (remark "<p>Hello</p>")) (world_as None))
    as [Hsame|(form & salt & Heq)].
  - reflexivity.
  - exact Hsame.
  - discriminate Heq.
Defined.

(** ** Invariants every request keeps *)

Lemma NoDup_snoc {A} (l : list A) (x : A) :
  NoDup l -> ~ In x l -> NoDup (l ++ [x]).
Proof.
  intros Hl Hx. induction Hl as [|y ys Hy Hys IH]; simpl.
  - constructor; [tauto|constructor].
  - constructor.
    + intros Hin. apply in_app_or in Hin. destruct Hin as [Hin|[->|[]]].
      * contradiction.
      * apply Hx. now left.
    + apply IH. intros Hin. apply Hx. now right.
Qed.

Lemma NoDup_map_filter {A B} (f : A -> B) (g : A -> bool) (l : list A) :
  NoDup (map f l) -> NoDup (map f (filter g l)).
Proof.
  induction l as [|x xs IH]; simpl; [tauto|].
  intros Hnd. inversion Hnd as [|? ? Hx Hxs]; subst.
  destruct (g x); simpl; [|now apply IH].
  constructor; [|now apply IH].
  intros Hin. apply Hx. apply in_map_iff in Hin.
  destruct Hin as (y & Hy & Hyin). apply filter_In in Hyin.
  apply in_map_iff. exists y. tauto.
Qed.

Lemma email_not_in_use (d : Database) (e : string) :
  email_in_use d e = false -> ~ In e (map User.email (users d)).
Proof.
  intros Huse Hin. apply in_map_iff in Hin. destruct Hin as (u & Hu & Hin).
  assert (Hyes : email_in_use d e = true)
    by (apply email_in_use_spec; now exists u).
  congruence.
Qed.

Lemma title_not_in_use (d : Database) (t : string) :
  title_in_use d t = false -> ~ In t (map BlogPost.title (blog_posts d)).
Proof.
  intros Huse Hin. apply in_map_iff in Hin. destruct Hin as (p & Hp & Hin).
  assert (Hyes : title_in_use d t = true)
    by (apply title_in_use_spec; now exists p).
  congruence.
Qed.

Section EditedRows.
Variables (pid : nat) (ttl sub img bdy : string).

Let edited (p : BlogPost.t) : BlogPost.t :=
  if BlogPost.id p =? pid then set_post_fields ttl sub img bdy p else p.

Lemma edited_ids (l : list BlogPost.t) :
  map BlogPost.id (map edited l) = map BlogPost.id l.
Proof.
  rewrite map_map. apply map_ext. intros p. unfold edited.
  now destruct (BlogPost.id p =? pid).
Qed.

Lemma edited_title_in (l : list BlogPost.t) (t : string) :
  In t (map BlogPost.title (map edited l)) ->
  (t = ttl /\ In pid (map BlogPost.id l))
  \/ exists p, In p l /\ BlogPost.id p <> pid /\ BlogPost.title p = t.
Proof.
  rewrite map_map. intros Hin. apply in_map_iff in Hin.
  destruct Hin as (p & Hp & Hin). unfold edited in Hp.
  destruct (Nat.eqb_spec (BlogPost.id p) pid) as [E|E].
  - left. split; [now rewrite <- Hp|]. rewrite <- E. now apply in_map.
  - right. now exists p.
Qed.

(** Rewriting the row with key [pid] keeps the titles distinct when no
    other row has the new title. *)
Lemma edited_titles_unique (l : list BlogPost.t) :
  NoDup (map BlogPost.id l) ->
  NoDup (map BlogPost.title l) ->
  existsb (fun p => negb (BlogPost.id p =? pid)
                    && String.eqb (BlogPost.title p) ttl) l = false ->
  NoDup (map BlogPost.title (map edited l)).
Proof.
  induction l as [|x xs IH]; simpl; [constructor|].
  intros Hids Httl Hclash.
  inversion Hids as [|? ? Hxid Hxsid]; subst.
  inversion Httl as [|? ? Hxt Hxst]; subst.
  apply orb_false_iff in Hclash. destruct Hclash as [Hx Hxs].
  constructor; [|now apply IH].
  intros Hin. apply edited_title_in in Hin.
  assert (Hothers : forall p, In p xs -> BlogPost.id p <> pid ->
                              BlogPost.title p <> ttl).
  { intros p Hp Hne Heq.
    assert (Hsome : existsb (fun p => negb (BlogPost.id p =? pid)
                                      && String.eqb (BlogPost.title p) ttl) xs
                    = true).
    { apply existsb_exists. exists p. split; [exact Hp|].
      apply andb_true_iff. split.
      - now apply negb_true_iff, Nat.eqb_neq.
      - now apply String.eqb_eq. }
    congruence. }
  unfold edited in Hin.
  destruct (Nat.eqb_spec (BlogPost.id x) pid) as [E|E]; simpl in Hin, Hx.
  - destruct Hin as [[_ Hpid]|(p & Hp & Hne & Heq)].
    + apply Hxid. now rewrite E.
    + exact (Hothers p Hp Hne Heq).
  - destruct Hin as [[Heq _]|(p & Hp & Hne & Heq)].
    + apply String.eqb_neq in Hx. now apply Hx.
    + apply Hxt. rewrite <- Heq. now apply in_map.
Qed.
End EditedRows.

Lemma detached_ids (pid : nat) (l : list Comment.t) :
  map Comment.id (map (detach_comment pid) l) = map Comment.id l.
Proof.
  rewrite map_map. apply map_ext. intros c. unfold detach_comment.
  destruct (Comment.blog_id c) as [b|]; [|reflexivity].
  now destruct (b =? pid).
Qed.

(** X5. Every request keeps the primary keys of the three tables, the
    emails of the users and the titles of the posts free of duplicates. *)
Theorem requests_keep_keys_unique `{Libraries} (op : Operation) (w : World) :
  keys_unique (db w) -> keys_unique (db (snd (run op w))).
Proof.
  intros Hk. destruct (run_db_effect op w) as [->|Hw]; [exact Hk|].
  destruct Hk as (Hu & He & Hp & Ht & Hc).
  invert_write Hw; unfold keys_unique; cbn [users blog_posts comments].
  - repeat split; try assumption; rewrite map_app; apply NoDup_snoc;
      try assumption; simpl.
    + match goal with E : User.id _ = _ |- _ => rewrite E end.
      apply next_id_fresh.
    + match goal with E : User.email _ = _ |- _ => rewrite E end.
      now apply email_not_in_use.
  - repeat split; try assumption. rewrite map_app. apply NoDup_snoc;
      [assumption|]. apply next_id_fresh.
  - repeat split; try assumption; rewrite map_app; apply NoDup_snoc;
      try assumption; simpl.
    + apply next_id_fresh.
    + now apply title_not_in_use.
  - repeat split; try assumption.
    + now rewrite edited_ids.
    + now apply edited_titles_unique.
  - repeat split; try assumption.
    + now apply NoDup_map_filter.
    + now apply NoDup_map_filter.
    + now rewrite detached_ids.
Qed.

Lemma requests_keep_keys_unique_witness :
  keys_unique
    (db (snd (run (H := sample_libraries)
                  (on_admin (edit_post_route 2 (draft "Transfer update")))
                  (world_as (Some 1))))).
Proof.
  apply (requests_keep_keys_unique (H := sample_libraries)).
  unfold keys_unique. simpl.
  repeat split; repeat constructor; simpl; intuition (try discriminate; try lia).
Defined.

(** X6. Every request keeps this: each post has an author and each comment
    a commenter, and both are ids of stored users. *)
Theorem requests_keep_writers `{Libraries} (op : Operation) (w : World) :
  writers_exist (db w) -> writers_exist (db (snd (run op w))).
Proof.
  intros Hwr. destruct (run_db_effect op w) as [->|Hw]; [exact Hwr|].
  destruct Hwr as [Hposts Hcomments].
  invert_write Hw; unfold writers_exist; cbn [users blog_posts comments].
  - split.
    + intros p Hin. destruct (Hposts p Hin) as (a & Ha & Hex).
      exists a. split; [exact Ha|]. rewrite map_app. apply in_or_app. now left.
    + intros c Hin. destruct (Hcomments c Hin) as (a & Ha & Hex).
      exists a. split; [exact Ha|]. rewrite map_app. apply in_or_app. now left.
  - split; [exact Hposts|].
    intros c Hin. apply in_app_or in Hin. destruct Hin as [Hin|[<-|[]]].
    + exact (Hcomments c Hin).
    + match goal with Hid : resolve_identity w = Authenticated ?u |- _ =>
        exists (User.id u); split; [reflexivity|];
        apply in_map; exact (proj1 (identity_stored w u Hid))
      end.
  - split; [|exact Hcomments].
    intros p Hin. apply in_app_or in Hin. destruct Hin as [Hin|[<-|[]]].
    + exact (Hposts p Hin).
    + match goal with Hadmin : is_admin w |- _ =>
        destruct Hadmin as (u & Hid & Hone)
      end.
      exists 1. split; [reflexivity|]. rewrite <- Hone.
      apply in_map. exact (proj1 (identity_stored w u Hid)).
  - split; [|exact Hcomments].
    intros p Hin. apply in_map_iff in Hin. destruct Hin as (q & <- & Hq).
    destruct (Hposts q Hq) as (a & Ha & Hex). exists a. split; [|exact Hex].
    now destruct (BlogPost.id q =? post_id).
  - split.
    + intros p Hin. apply filter_In in Hin. exact (Hposts p (proj1 Hin)).
    + intros c Hin. apply in_map_iff in Hin. destruct Hin as (c0 & <- & Hc0).
      destruct (Hcomments c0 Hc0) as (a & Ha & Hex). exists a.
      split; [|exact Hex]. unfold detach_comment.
      destruct (Comment.blog_id c0) as [b|]; [|exact Ha].
      now destruct (b =? post_id).
Qed.

Lemma requests_keep_writers_witness :
  writers_exist
    (db (snd (run (H := sample_libraries) (on_post 2 (remark "<p>Soon?</p>"))
                  (world_as (Some 2))))).
Proof.
  apply (requests_keep_writers (H := sample_libraries)).
  unfold writers_exist. simpl. split.
  - intros p [<-|[<-|[]]]; exists 1; simpl; tauto.
  - intros c [<-|[]]. exists 2. simpl. tauto.
Defined.

(** The admin routes leave the session and the users as they are. *)
Lemma serve_admin_keeps_session `{Libraries} (r : AdminRoute) (w : World) :
  session_user_id (snd (serve_admin r w)) = session_user_id w
  /\ users (db (snd (serve_admin r w))) = users (db w).
Proof.
  destruct (serve_admin_run r w)
    as [[_ ->]|[[_ ->]|[(u & Hid & Hone) ->]]]; try (split; reflexivity).
  destruct r as [form today|post_id submitted|post_id]; simpl.
  - destruct (add_new_post_run form today w u Hid)
      as [[_ ->]|[(_ & _ & ->)|(_ & _ & ->)]]; split; reflexivity.
  - destruct (edit_post_run post_id submitted w)
      as [[_ ->]|[(post & page & _ & ->)|[(post & _ & _ & _ & ->)
                                         |(post & _ & _ & _ & ->)]]];
      split; reflexivity.
  - destruct (delete_post_run post_id w) as [[_ ->]|(post & _ & ->)];
      split; reflexivity.
Qed.

(** X7. Every request keeps this: the user id in the session, if there is
    one, is the id of a stored user, so that the session never falls back
    to the anonymous user for want of its row. *)
Theorem requests_keep_session_resolving `{Libraries}
  (op : Operation) (w : World) :
  session_resolves w -> session_resolves (snd (run op w)).
Proof.
  intros Hs.
  destruct op as [|form salt|form| |post_id comment_form| | |r]; simpl;
    try exact Hs.
  - destruct (register_run form salt w)
      as [[_ ->]|[(_ & _ & ->)|(_ & _ & ->)]]; try exact Hs.
    intros i Hi. simpl in *. injection Hi as <-.
    rewrite map_app. apply in_or_app. right. now left.
  - destruct (login_run form w)
      as [[_ ->]|[(msg & ->)|(user & Hin & _ & _ & ->)]]; try exact Hs.
    intros i Hi. simpl in *. injection Hi as <-. now apply in_map.
  - intros i Hi. discriminate Hi.
  - destruct (show_post_run post_id comment_form w)
      as [[_ ->]|[(_ & _ & ->)|(u & _ & _ & ->)]]; exact Hs.
  - destruct (serve_admin_keeps_session r w) as [Hsess Husers].
    intros i Hi. rewrite Husers. apply Hs. now rewrite <- Hsess.
Qed.

Lemma requests_keep_session_resolving_witness :
  session_resolves
    (snd (run (H := sample_libraries)
              (on_login (credentials "bob@example.org" "hunter2"))
              (world_as None))).
Proof.
  apply (requests_keep_session_resolving (H := sample_libraries)).
  intros i Hi. discriminate Hi.
Defined.

(** ** The administrator is the first registrant *)

(** X8. On an empty users table a registration that validates stores the
    user under id 1 and logs it in, so that every admin route then runs its
    view for that session. *)
Theorem first_registrant_is_admin `{Libraries}
  (form : RegisterForm.t) (salt : string) (w : World) :
  users (db w) = [] ->
  RegisterForm.validate_on_submit form = true ->
  exists u,
    users (db (snd (register form salt w))) = [u]
    /\ User.id u = 1
    /\ resolve_identity (snd (register form salt w)) = Authenticated u
    /\ forall r,
         serve_admin r (snd (register form salt w))
         = match undecorated r (snd (register form salt w)) with
           | (Raise AttributeError, w') => (Return need_to_log_in, w')
           | ran => ran
           end.
Proof.
  intros Hempty Hv.
  assert (Huse : email_in_use (db w) (RegisterForm.email form) = false)
    by (unfold email_in_use; now rewrite Hempty).
  destruct (register_run form salt w)
    as [[Hv' _]|[(_ & Huse' & _)|(_ & _ & Hrun)]]; try congruence.
  rewrite Hrun. cbn [snd]. rewrite Hempty. cbn [map app next_id fold_right].
  eexists. split; [reflexivity|]. split; [reflexivity|].
  assert (Hid : forall d f,
             resolve_identity
               (mkWorld (mkDatabase
                           [User.mk 1 (RegisterForm.name form)
                                    (RegisterForm.email form) d]
                           (blog_posts (db w)) (comments (db w)))
                        (Some 1) f)
             = Authenticated (User.mk 1 (RegisterForm.name form)
                                      (RegisterForm.email form) d))
    by reflexivity.
  split; [apply Hid|].
  intros r. unfold serve_admin.
  now rewrite (admin_only_admin _ _ _ (Hid _ _) eq_refl).
Qed.

Lemma first_registrant_is_admin_witness :
  exists u,
    users (db (snd (register (H := sample_libraries)
                             (signup "Ada" "ada@example.org" "s3cret")
                             "Zq3xY7Lm" empty_world))) = [u]
    /\ User.id u = 1.
Proof.
  destruct (first_registrant_is_admin (H := sample_libraries)
              (signup "Ada" "ada@example.org" "s3cret") "Zq3xY7Lm" empty_world)
    as (u & Husers & Hone & _); [reflexivity | reflexivity |].
  now exists u.
Defined.

(** X9. Once a user with a positive id is stored, a registration that
    validates with a fresh email logs in a user whose id is not 1: every
    admin route then answers that session with [abort(403)] and changes
    nothing. *)
Theorem later_registrant_is_forbidden `{Libraries}
  (form : RegisterForm.t) (salt : string) (w : World) (earlier : User.t) :
  In earlier (users (db w)) -> 1 <= User.id earlier ->
  RegisterForm.validate_on_submit form = true ->
  email_in_use (db w) (RegisterForm.email form) = false ->
  forall r,
    serve_admin r (snd (register form salt w))
    = (Raise (HTTPException 403), snd (register form salt w)).
Proof.
  intros Hin Hpos Hv Huse r.
  destruct (register_run form salt w)
    as [[Hv' _]|[(_ & Huse' & _)|(_ & _ & Hrun)]]; try congruence.
  rewrite Hrun. cbn [snd].
  set (u := User.mk (next_id (map User.id (users (db w))))
                    (RegisterForm.name form) (RegisterForm.email form)
                    (generate_password_hash (RegisterForm.password form)
                                            "pbkdf2:sha256" 8 salt)).
  set (w' := mkWorld _ _ _).
  assert (Hfresh : ~ In (User.id u) (map User.id (users (db w))))
    by apply next_id_fresh.
  assert (Hid : resolve_identity w' = Authenticated u).
  { unfold resolve_identity, load_user, User_query_get, w'. simpl.
    rewrite find_none_app by (apply find_id_none_of_fresh; exact Hfresh).
    simpl. now rewrite Nat.eqb_refl. }
  assert (Hne : User.id u <> 1).
  { assert (Hlt : User.id earlier < User.id u).
    { apply next_id_above. now apply in_map. }
    lia. }
  unfold serve_admin. now rewrite (admin_only_other _ w' u Hid Hne).
Qed.

Lemma later_registrant_is_forbidden_witness :
  status_code
    (fst (serve_admin (H := sample_libraries) (delete_route 1)
            (snd (register (H := sample_libraries)
                           (signup "Cem" "cem@example.org" "kadikoy1907")
                           "Hq8rT2vN" (world_as None)))))
  = 403.
Proof.
  rewrite (later_registrant_is_forbidden (H := sample_libraries)
             (signup "Cem" "cem@example.org" "kadikoy1907") "Hq8rT2vN"
             (world_as None) ada).
  - reflexivity.
  - simpl. now left.
  - simpl. lia.
  - reflexivity.
  - reflexivity.
Defined.

(** ** Writing, then reading *)

(** X10. After a logged-in user's comment on a post page is stored, the
    page of that post lists the comments it listed before followed by the
    new one, with the same post and users, and rendering it changes
    nothing. *)
Theorem comment_then_view `{Libraries}
  (post_id : nat) (comment_form page_form : CommentForm.t) (w : World)
  (u : User.t) :
  CommentForm.validate_on_submit comment_form = true ->
  resolve_identity w = Authenticated u ->
  CommentForm.validate_on_submit page_form = false ->
  show_post post_id page_form (snd (show_post post_id comment_form w))
  = (Return (render_template
               (post_html (BlogPost_query_get (db w) post_id) (users (db w))
                          page_form true
                          (comments_of post_id (comments (db w))
                           ++ [new_comment w post_id comment_form u]))),
     snd (show_post post_id comment_form w)).
Proof.
  intros Hv Hid Hpage.
  destruct (show_post_run post_id comment_form w)
    as [[Hv' _]|[(_ & Hanon & _)|(u' & _ & Hid' & Hrun)]]; try congruence.
  assert (u' = u) by congruence. subst u'.
  rewrite Hrun. cbn [snd].
  set (w' := mkWorld _ _ _).
  destruct (show_post_run post_id page_form w')
    as [[_ Hview]|[(Hv' & _)|(u' & Hv' & _)]]; try congruence.
  rewrite Hview.
  assert (Hsame : resolve_identity w' = resolve_identity w) by reflexivity.
  rewrite Hsame, Hid. unfold w'. cbn [db users comments].
  unfold comments_of at 1. rewrite filter_app. simpl.
  now rewrite Nat.eqb_refl.
Qed.

Lemma comment_then_view_witness :
  fst (show_post (H := sample_libraries) 1 (CommentForm.mk (mkRequest GET true) "")
         (snd (show_post (H := sample_libraries) 1 (remark "<p>Forza</p>")
                         (world_as (Some 2)))))
  = Return (render_template
              (post_html (Some derby) [ada; bob]
                 (CommentForm.mk (mkRequest GET true) "") true
                 [cheer; Comment.mk 2 "<p>Forza</p>" (Some 2) (Some 1)])).
Proof.
  rewrite (comment_then_view (H := sample_libraries) 1 (remark "<p>Forza</p>")
             (CommentForm.mk (mkRequest GET true) "") (world_as (Some 2)) bob);
    reflexivity.
Defined.

(** X11. After the administrator's new post is stored, it is the last row
    of the post table, under an id no earlier post had, with the
    administrator as author and the date of the request; looking that id up
    finds it, and its page shows it. *)
Theorem new_post_then_view `{Libraries}
  (form : CreatePostForm.t) (today : string) (w : World)
  (page_form : CommentForm.t) :
  is_admin w ->
  CreatePostForm.validate_on_submit form = true ->
  title_in_use (db w) (CreatePostForm.title form) = false ->
  CommentForm.validate_on_submit page_form = false ->
  let created := new_blog_post w form today 1 in
  let w' := snd (serve_admin (new_post form today) w) in
  blog_posts (db w') = blog_posts (db w) ++ [created]
  /\ ~ In (BlogPost.id created) (map BlogPost.id (blog_posts (db w)))
  /\ BlogPost_query_get (db w') (BlogPost.id created) = Some created
  /\ show_post (BlogPost.id created) page_form w'
     = (Return (render_template
                  (post_html (Some created) (users (db w)) page_form true
                             (comments_of (BlogPost.id created)
                                          (comments (db w))))), w').
Proof.
  intros (u & Hid & Hone) Hv Huse Hpage created w'.
  assert (Hrun : w' = mkWorld (mkDatabase (users (db w))
                                 (blog_posts (db w) ++ [created])
                                 (comments (db w)))
                              (session_user_id w) (flashes w)).
  { unfold w', serve_admin. rewrite (admin_only_admin _ w u Hid Hone).
    unfold try_except_AttributeError. simpl undecorated.
    destruct (add_new_post_run form today w u Hid)
      as [[Hv' _]|[(_ & Huse' & _)|(_ & _ & Hadd)]]; try congruence.
    rewrite Hadd, Hone. reflexivity. }
  assert (Hfresh : ~ In (BlogPost.id created) (map BlogPost.id (blog_posts (db w))))
    by apply next_id_fresh.
  assert (Hget : BlogPost_query_get (db w') (BlogPost.id created) = Some created).
  { rewrite Hrun. unfold BlogPost_query_get. cbn [db blog_posts].
    rewrite find_none_app.
    - now rewrite Nat.eqb_refl.
    - destruct (find (fun p => BlogPost.id p =? BlogPost.id created)
                     (blog_posts (db w))) as [q|] eqn:E; [|reflexivity].
      exfalso. apply find_some in E. destruct E as [Hq Heq].
      apply Nat.eqb_eq in Heq. apply Hfresh. rewrite <- Heq. now apply in_map. }
  repeat split; try assumption.
  - now rewrite Hrun.
  - destruct (show_post_run (BlogPost.id created) page_form w')
      as [[_ Hview]|[(Hv' & _)|(u' & Hv' & _)]]; try congruence.
    rewrite Hview, Hget.
    assert (Hsame : resolve_identity w' = resolve_identity w)
      by (rewrite Hrun; reflexivity).
    rewrite Hsame, Hid. now rewrite Hrun.
Qed.

Lemma new_post_then_view_witness :
  BlogPost_query_get
    (db (snd (serve_admin (H := sample_libraries)
                (new_post (draft "Cup final") "July 04, 2023")
                (world_as (Some 1))))) 3
  = Some (BlogPost.mk 3 "Cup final" "Subtitle" "July 04, 2023" "<p>Text</p>"
                      "https://example.org/new.jpg" (Some 1)).
Proof.
  destruct (new_post_then_view (H := sample_libraries)
              (draft "Cup final") "July 04, 2023" (world_as (Some 1))
              (CommentForm.mk (mkRequest GET true) ""))
    as (_ & _ & Hget & _).
  - exists ada. split; reflexivity.
  - reflexivity.
  - reflexivity.
  - reflexivity.
  - exact Hget.
Defined.

(** ** Deleting posts *)

(** X12. When the administrator deletes a stored post, the response
    redirects to the post list, the id no longer resolves, the posts left
    are exactly the others in their old order, and the users, the session
    and the flashed messages are unchanged. *)
Theorem delete_post_removes `{Libraries}
  (post_id : nat) (w : World) (post : BlogPost.t) :
  is_admin w ->
  BlogPost_query_get (db w) post_id = Some post ->
  let w' := snd (serve_admin (delete_route post_id) w) in
  fst (serve_admin (delete_route post_id) w) = Return (redirect url_get_all_posts)
  /\ BlogPost_query_get (db w') post_id = None
  /\ blog_posts (db w')
     = filter (fun q => negb (BlogPost.id q =? post_id)) (blog_posts (db w))
  /\ (forall q, In q (blog_posts (db w')) <->
                In q (blog_posts (db w)) /\ BlogPost.id q <> post_id)
  /\ users (db w') = users (db w)
  /\ session_user_id w' = session_user_id w
  /\ flashes w' = flashes w.
Proof.
  intros (u & Hid & Hone) Hget w'.
  assert (Hrun : serve_admin (delete_route post_id) w
                 = (Return (redirect url_get_all_posts),
                    mkWorld
                      (mkDatabase (users (db w))
                         (filter (fun q => negb (BlogPost.id q =? post_id))
                                 (blog_posts (db w)))
                         (map (detach_comment post_id) (comments (db w))))
                      (session_user_id w) (flashes w))).
  { unfold serve_admin. rewrite (admin_only_admin _ w u Hid Hone).
    unfold try_except_AttributeError. simpl undecorated.
    destruct (delete_post_run post_id w) as [[Hnone _]|(post' & _ & Hdel)];
      [congruence|].
    now rewrite Hdel. }
  unfold w'. rewrite Hrun. cbn [fst snd db users blog_posts session_user_id flashes].
  split; [reflexivity|]. split; [|split; [reflexivity|split; [|tauto]]].
  - unfold BlogPost_query_get. cbn [blog_posts].
    destruct (find (fun p => BlogPost.id p =? post_id)
                   (filter (fun q => negb (BlogPost.id q =? post_id))
                           (blog_posts (db w)))) as [q|] eqn:E; [|reflexivity].
    apply find_some in E. destruct E as [Hq Heq].
    apply filter_In in Hq. destruct Hq as [_ Hneq].
    rewrite Heq in Hneq. discriminate.
  - intros q. rewrite filter_In, negb_true_iff, Nat.eqb_neq. tauto.
Qed.

Lemma delete_post_removes_witness :
  blog_posts (db (snd (serve_admin (H := sample_libraries) (delete_route 1)
                                   (world_as (Some 1)))))
  = [transfer].
Proof.
  destruct (delete_post_removes (H := sample_libraries) 1 (world_as (Some 1)) derby)
    as (_ & _ & Hposts & _).
  - exists ada. split; reflexivity.
  - reflexivity.
  - exact Hposts.
Defined.

(** X13. When the administrator asks to delete a post id that resolves to
    no row, [db.session.delete(None)] raises; the decorator does not catch
    it, the request ends with status 500 and nothing has changed. *)
Theorem delete_missing_post_fails `{Libraries} (post_id : nat) (w : World) :
  is_admin w ->
  BlogPost_query_get (db w) post_id = None ->
  serve_admin (delete_route post_id) w = (Raise UnmappedInstanceError, w)
  /\ status_code (fst (serve_admin (delete_route post_id) w)) = 500.
Proof.
  intros (u & Hid & Hone) Hget.
  assert (Hrun : serve_admin (delete_route post_id) w
                 = (Raise UnmappedInstanceError, w)).
  { unfold serve_admin. rewrite (admin_only_admin _ w u Hid Hone).
    unfold try_except_AttributeError. simpl undecorated.
    destruct (delete_post_run post_id w) as [[_ Hdel]|(post & Hsome & _)];
      [|congruence].
    now rewrite Hdel. }
  split; [exact Hrun|]. now rewrite Hrun.
Qed.

Lemma delete_missing_post_fails_witness :
  serve_admin (H := sample_libraries) (delete_route 9) (world_as (Some 1))
  = (Raise UnmappedInstanceError, world_as (Some 1)).
Proof.
  apply (delete_missing_post_fails (H := sample_libraries) 9 (world_as (Some 1))).
  - exists ada. split; reflexivity.
  - reflexivity.
Defined.

(** ** Sessions *)

(** X14. Logging out answers with a redirect to the post list, leaves the
    database and the flashed messages as they are and makes the requester
    anonymous: every admin route then answers with the plain need-to-log-in
    markup and changes nothing. *)
Theorem logout_then_refused `{Libraries} (w : World) :
  logout w = (Return (redirect url_get_all_posts),
              mkWorld (db w) None (flashes w))
  /\ resolve_identity (snd (logout w)) = Anonymous
  /\ forall r, serve_admin r (snd (logout w))
               = (Return need_to_log_in, snd (logout w)).
Proof.
  split; [reflexivity|]. split; [reflexivity|].
  intros r. unfold serve_admin. now rewrite admin_only_anonymous.
Qed.

(** X15. A user who registered, logged out and logs in again with the same
    email and password is logged in as the user the registration stored,
    provided the hasher verifies the hash it produced for that password. *)
Theorem register_logout_login `{Libraries}
  (signup_form : RegisterForm.t) (salt : string) (login_form : LoginForm.t)
  (w : World) :
  RegisterForm.validate_on_submit signup_form = true ->
  email_in_use (db w) (RegisterForm.email signup_form) = false ->
  LoginForm.validate_on_submit login_form = true ->
  LoginForm.email login_form = RegisterForm.email signup_form ->
  LoginForm.password login_form = RegisterForm.password signup_form ->
  check_password_hash
    (generate_password_hash (RegisterForm.password signup_form)
                            "pbkdf2:sha256" 8 salt)
    (RegisterForm.password signup_form) = true ->
  let registered := snd (register signup_form salt w) in
  let back := login login_form (snd (logout registered)) in
  fst back = Return (redirect url_get_all_posts)
  /\ db (snd back) = db registered
  /\ resolve_identity (snd back) = resolve_identity registered
  /\ exists u, resolve_identity (snd back) = Authenticated u
               /\ User.name u = RegisterForm.name signup_form
               /\ User.email u = RegisterForm.email signup_form.
Proof.
  intros Hv Huse Hlv Hmail Hpw Hcheck registered back.
  destruct (register_run signup_form salt w)
    as [[Hv' _]|[(_ & Huse' & _)|(_ & _ & Hrun)]]; try congruence.
  set (u := User.mk (next_id (map User.id (users (db w))))
                    (RegisterForm.name signup_form)
                    (RegisterForm.email signup_form)
                    (generate_password_hash (RegisterForm.password signup_form)
                                            "pbkdf2:sha256" 8 salt)) in *.
  assert (Hreg : registered
                 = mkWorld (mkDatabase (users (db w) ++ [u]) (blog_posts (db w))
                                       (comments (db w)))
                           (Some (User.id u)) (flashes w))
    by (unfold registered; now rewrite Hrun).
  assert (Hfound : User_query_filter_by_email_first (db registered)
                     (LoginForm.email login_form) = Some u).
  { rewrite Hreg, Hmail. unfold User_query_filter_by_email_first.
    cbn [db users].
    rewrite find_none_app by (now apply filter_by_email_none_iff).
    simpl. now rewrite String.eqb_refl. }
  assert (Hident : resolve_identity registered = Authenticated u).
  { rewrite Hreg. unfold resolve_identity, load_user, User_query_get. simpl.
    rewrite find_none_app
      by (apply find_id_none_of_fresh; apply next_id_fresh).
    simpl. now rewrite Nat.eqb_refl. }
  assert (Hback : back = (Return (redirect url_get_all_posts),
                          mkWorld (db registered) (Some (User.id u))
                                  (flashes registered))).
  { set (w2 := mkWorld (db registered) None (flashes registered)).
    assert (Hfound2 : User_query_filter_by_email_first (db w2)
                        (LoginForm.email login_form) = Some u) by exact Hfound.
    assert (Hcheck2 : check_password_hash (User.password u)
                        (LoginForm.password login_form) = true)
      by (rewrite Hpw; exact Hcheck).
    unfold back. change (snd (logout registered)) with w2.
    unfold login, bind, query. rewrite Hlv, Hfound2, Hcheck2. reflexivity. }
  rewrite Hback. cbn [fst snd db].
  assert (Hagain : resolve_identity
                     (mkWorld (db registered) (Some (User.id u))
                              (flashes registered))
                   = Authenticated u).
  { rewrite <- Hident. rewrite Hreg. reflexivity. }
  repeat split; try assumption.
  - now rewrite Hagain, Hident.
  - exists u. now repeat split.
Qed.

Lemma register_logout_login_witness :
  resolve_identity
    (snd (login (H := sample_libraries) (credentials "cem@example.org" "kadikoy1907")
            (snd (logout
                    (snd (register (H := sample_libraries)
                            (signup "Cem" "cem@example.org" "kadikoy1907")
                            "Hq8rT2vN" (world_as None)))))))
  = Authenticated
      (User.mk 3 "Cem" "cem@example.org"
         (sample_generate_password_hash "kadikoy1907" "pbkdf2:sha256" 8 "Hq8rT2vN")).
Proof.
  destruct (register_logout_login (H := sample_libraries)
              (signup "Cem" "cem@example.org" "kadikoy1907") "Hq8rT2vN"
              (credentials "cem@example.org" "kadikoy1907") (world_as None))
    as (_ & _ & Hsame & _); try reflexivity.
Defined.

(** ** Failures *)

(** X16. A request ends in an exception only on an admin route, and then
    nothing has changed: either [abort(403)] for a logged-in user other
    than the administrator, or, for the administrator, the integrity error
    of a title in use or the refusal to delete a missing post. No other
    route raises; in particular the registration never hits the unique
    constraint on the email. *)
Theorem exceptions_only_on_admin_routes `{Libraries}
  (op : Operation) (w : World) (e : Exception) :
  fst (run op w) = Raise e ->
  snd (run op w) = w
  /\ exists r,
       op = on_admin r
       /\ ((e = HTTPException 403
            /\ exists u, resolve_identity w = Authenticated u /\ User.id u <> 1)
           \/ (is_admin w
               /\ ((e = IntegrityError
                    /\ forall post_id, r <> delete_route post_id)
                   \/ (e = UnmappedInstanceError
                       /\ exists post_id,
                            r = delete_route post_id
                            /\ BlogPost_query_get (db w) post_id = None)))).
Proof.
  destruct op as [|form salt|form| |post_id comment_form| | |r]; simpl;
    try discriminate.
  - destruct (register_run form salt w)
      as [[_ ->]|[(_ & _ & ->)|(_ & _ & ->)]]; discriminate.
  - destruct (login_run form w)
      as [[_ ->]|[(msg & ->)|(user & _ & _ & _ & ->)]]; discriminate.
  - destruct (show_post_run post_id comment_form w)
      as [[_ ->]|[(_ & _ & ->)|(u & _ & _ & ->)]]; discriminate.
  - destruct (serve_admin_run r w)
      as [[_ ->]|[[Hother ->]|[Hadmin ->]]]; [discriminate| |].
    + intros He. injection He as <-. split; [reflexivity|].
      exists r. split; [reflexivity|]. left. now split.
    + destruct Hadmin as (u & Hid & Hone).
      assert (Hadmin : is_admin w) by now exists u.
      destruct r as [form today|post_id submitted|post_id]; simpl.
      * destruct (add_new_post_run form today w u Hid)
          as [[_ ->]|[(_ & _ & ->)|(_ & _ & ->)]]; try discriminate.
        intros He. injection He as <-. split; [reflexivity|].
        eexists. split; [reflexivity|]. right. split; [exact Hadmin|].
        left. split; [reflexivity|]. discriminate.
      * destruct (edit_post_run post_id submitted w)
          as [[_ ->]|[(post & page & _ & ->)|[(post & _ & _ & _ & ->)
                                             |(post & _ & _ & _ & ->)]]];
          try discriminate.
        intros He. injection He as <-. split; [reflexivity|].
        eexists. split; [reflexivity|]. right. split; [exact Hadmin|].
        left. split; [reflexivity|]. discriminate.
      * destruct (delete_post_run post_id w) as [[Hnone ->]|(post & _ & ->)];
          try discriminate.
        intros He. injection He as <-. split; [reflexivity|].
        eexists. split; [reflexivity|]. right. split; [exact Hadmin|].
        right. split; [reflexivity|]. now exists post_id.
Qed.

Lemma exceptions_only_on_admin_routes_witness :
  snd (run (H := sample_libraries)
           (on_admin (edit_post_route 2 (draft "Derby day")))
           (world_as (Some 1)))
  = world_as (Some 1).
Proof.
  apply (exceptions_only_on_admin_routes (H := sample_libraries)
           (on_admin (edit_post_route 2 (draft "Derby day")))
           (world_as (Some 1)) IntegrityError).
  reflexivity.
Defined.

(** X17. The administrator is told to log in exactly when the request is
    an edit of a post id that resolves to no row: no other admin request
    of the administrator is answered with that markup. *)
Theorem admin_sees_login_notice_iff `{Libraries} (r : AdminRoute) (w : World) :
  is_admin w ->
  (fst (serve_admin r w) = Return need_to_log_in
   <-> exists post_id submitted,
         r = edit_post_route post_id submitted
         /\ BlogPost_query_get (db w) post_id = None).
Proof.
  intros (u & Hid & Hone).
  unfold serve_admin. rewrite (admin_only_admin _ w u Hid Hone).
  unfold try_except_AttributeError.
  destruct r as [form today|post_id submitted|post_id]; simpl undecorated.
  - destruct (add_new_post_run form today w u Hid)
      as [[_ ->]|[(_ & _ & ->)|(_ & _ & ->)]];
      (split; [discriminate|intros (p & s & Hr & _); discriminate Hr]).
  - destruct (edit_post_run post_id submitted w)
      as [[Hnone ->]|[(post & page & Hsome & ->)|[(post & Hsome & _ & _ & ->)
                                                 |(post & Hsome & _ & _ & ->)]]].
    + split; [|reflexivity]. intros _. now exists post_id, submitted.
    + split; [discriminate|].
      intros (p & s & Hr & Hnone). injection Hr as <- <-. congruence.
    + split; [discriminate|].
      intros (p & s & Hr & Hnone). injection Hr as <- <-. congruence.
    + split; [discriminate|].
      intros (p & s & Hr & Hnone). injection Hr as <- <-. congruence.
  - destruct (delete_post_run post_id w) as [[_ ->]|(post & _ & ->)];
      (split; [discriminate|intros (p & s & Hr & _); discriminate Hr]).
Qed.

Lemma admin_sees_login_notice_iff_witness :
  fst (serve_admin (H := sample_libraries) (edit_post_route 7 (draft "Cup final"))
                   (world_as (Some 1)))
  = Return need_to_log_in.
Proof.
  apply (admin_sees_login_notice_iff (H := sample_libraries)
           (edit_post_route 7 (draft "Cup final")) (world_as (Some 1))).
  - exists ada. split; reflexivity.
  - exists 7, (draft "Cup final"). split; reflexivity.
Defined.

(** X18. When the administrator opens the edit page of a stored post
    without submitting, the form rendered carries the post's title,
    subtitle, image URL and body, and nothing changes. *)
Theorem edit_page_is_prefilled `{Libraries}
  (post_id : nat) (submitted : CreatePostForm.t) (w : World) (post : BlogPost.t) :
  is_admin w ->
  BlogPost_query_get (db w) post_id = Some post ->
  is_submitted (CreatePostForm.request submitted) = false ->
  serve_admin (edit_post_route post_id submitted) w
  = (Return (render_template
               (make_post_html
                  (CreatePostForm.mk (CreatePostForm.request submitted)
                                     (BlogPost.title post) (BlogPost.subtitle post)
                                     (BlogPost.img_url post) (BlogPost.body post))
                  true)), w).
Proof.
  intros (u & Hid & Hone) Hget Hsub.
  unfold serve_admin. rewrite (admin_only_admin _ w u Hid Hone).
  unfold try_except_AttributeError. simpl undecorated.
  unfold edit_post, bind, query. rewrite Hget. simpl. unfold ret at 1.
  rewrite Hsub. unfold CreatePostForm.validate_on_submit. simpl.
  rewrite Hsub. simpl.
  unfold logged_in_now, bind, current_user. rewrite Hid. reflexivity.
Qed.

Lemma edit_page_is_prefilled_witness :
  serve_admin (H := sample_libraries)
    (edit_post_route 1 (CreatePostForm.mk (mkRequest GET true) "" "" "" ""))
    (world_as (Some 1))
  = (Return (render_template
               (make_post_html
                  (CreatePostForm.mk (mkRequest GET true) "Derby day"
                     "A night at the stadium" "https://example.org/derby.jpg"
                     "<p>Match report</p>") true)), world_as (Some 1)).
Proof.
  apply (edit_page_is_prefilled (H := sample_libraries) 1
           (CreatePostForm.mk (mkRequest GET true) "" "" "" "")
           (world_as (Some 1)) derby).
  - exists ada. split; reflexivity.
  - reflexivity.
  - reflexivity.
Defined.

(** ** Rejected forms and flashed messages *)

(** X19. A request whose form fails one of its validators (a required
    field, the URL check of the image address, the CSRF token) changes
    neither the database nor the session nor the flashed messages. *)
Theorem failed_validation_changes_nothing `{Libraries}
  (op : Operation) (w : World) :
  form_passes op = false -> snd (run op w) = w.
Proof.
  intros Hfail.
  destruct op as [|form salt|form| |post_id comment_form| | |r]; simpl in *;
    try discriminate.
  - destruct (register_run form salt w)
      as [[_ ->]|[(Hv & _)|(Hv & _)]]; [reflexivity| |];
      unfold RegisterForm.validate_on_submit in Hv; rewrite Hfail in Hv;
      now rewrite andb_false_r in Hv.
  - assert (Hv : LoginForm.validate_on_submit form = false)
      by (unfold LoginForm.validate_on_submit; rewrite Hfail;
          apply andb_false_r).
    unfold login. now rewrite Hv.
  - destruct (show_post_run post_id comment_form w)
      as [[_ ->]|[(Hv & _)|(u & Hv & _)]]; [reflexivity| |];
      unfold CommentForm.validate_on_submit in Hv; rewrite Hfail in Hv;
      now rewrite andb_false_r in Hv.
  - destruct (serve_admin_run r w)
      as [[_ ->]|[[_ ->]|[(u & Hid & Hone) ->]]]; try reflexivity.
    destruct r as [form today|post_id submitted|post_id]; simpl in *;
      try discriminate.
    + destruct (add_new_post_run form today w u Hid)
        as [[_ ->]|[(Hv & _)|(Hv & _)]]; [reflexivity| |];
        unfold CreatePostForm.validate_on_submit in Hv; rewrite Hfail in Hv;
        now rewrite andb_false_r in Hv.
    + destruct (edit_post_run post_id submitted w)
        as [[_ ->]|[(post & page & _ & ->)|[(post & _ & Hv & _)
                                           |(post & _ & Hv & _)]]];
        [reflexivity | reflexivity | |];
        unfold CreatePostForm.validate_on_submit in Hv; rewrite Hfail in Hv;
        now rewrite andb_false_r in Hv.
Qed.

Lemma failed_validation_changes_nothing_witness :
  snd (run (H := sample_libraries)
           (on_admin (new_post
              (CreatePostForm.mk post_request "Cup final" "Subtitle"
                                 "not a link" "<p>Text</p>")
              "July 04, 2023"))
           (world_as (Some 1)))
  = world_as (Some 1).
Proof.
  apply (failed_validation_changes_nothing (H := sample_libraries)).
  reflexivity.
Defined.

(** X20. A request flashes at most one message, and when it does the
    response is a redirect to the login page and neither the database nor
    the session has changed. *)
Theorem flash_means_redirect_to_login `{Libraries} (op : Operation) (w : World) :
  flashes (snd (run op w)) = flashes w
  \/ exists msg,
       run op w
       = (Return (redirect url_login),
          mkWorld (db w) (session_user_id w) (flashes w ++ [msg])).
Proof.
  destruct op as [|form salt|form| |post_id comment_form| | |r]; simpl;
    try (left; reflexivity).
  - destruct (register_run form salt w)
      as [[_ ->]|[(_ & _ & ->)|(_ & _ & ->)]];
      [now left | right; now eexists | now left].
  - destruct (login_run form w)
      as [[_ ->]|[(msg & ->)|(user & _ & _ & _ & ->)]];
      [now left | right; now eexists | now left].
  - destruct (show_post_run post_id comment_form w)
      as [[_ ->]|[(_ & _ & ->)|(u & _ & _ & ->)]];
      [now left | right; now eexists | now left].
  - left.
    destruct (serve_admin_run r w)
      as [[_ ->]|[[_ ->]|[(u & Hid & Hone) ->]]]; try reflexivity.
    destruct r as [form today|post_id submitted|post_id]; simpl.
    + destruct (add_new_post_run form today w u Hid)
        as [[_ ->]|[(_ & _ & ->)|(_ & _ & ->)]]; reflexivity.
    + destruct (edit_post_run post_id submitted w)
        as [[_ ->]|[(post & page & _ & ->)|[(post & _ & _ & _ & ->)
                                           |(post & _ & _ & _ & ->)]]];
        reflexivity.
    + destruct (delete_post_run post_id w) as [[_ ->]|(post & _ & ->)];
        reflexivity.
Qed.
